(** * PrismLauncher: the external updater controller and the Flame URL builder

    A shallow embedding of [launcher/updater/PrismExternalUpdater.cpp] and of
    the inline members of [class FlameAPI], with the properties of their
    update-check flow, scheduler, skip list and URL construction.

    Conventions of the embedding:
    - a [QString] or [QByteArray] is a [string] (one [ascii] per code unit);
    - an [int] is a [Z] kept inside [INT_MIN .. INT_MAX]; a conversion that
      leaves this range has no defined result in C++ and yields [None];
    - a [double] is a binary64 floating-point number of the kernel
      ([PrimFloat.float]), with its IEEE subtraction, product and
      comparison; the conversions between [double] and the integers are
      written out on its sign, mantissa and exponent;
    - the object mutated through [priv] is passed explicitly, together with
      the list of user-visible events (dialogs, spawned processes);
    - what the environment decides (the clock, the result of the updater
      process, the button the operator presses) is an argument. *)

From Stdlib Require Import ZArith Lia List String Ascii Bool DecimalString Floats.
From stdpp Require Import base option strings gmap.
Import ListNotations.

Local Open Scope string_scope.
Local Open Scope Z_scope.

(* ===================================================================== *)
(** * The Qt values the updater relies on *)
(* ===================================================================== *)

Module Qt.

(** ** Text *)

(** [QChar::isSpace] on the code units below 128: tab, line feed, vertical
    tab, form feed, carriage return and space. *)
Definition isSpace (c : ascii) : bool :=
  let n := nat_of_ascii c in
  ((9 <=? n)%nat && (n <=? 13)%nat) || (n =? 32)%nat.

Fixpoint trim_left (s : string) : string :=
  match s with
  | String c s' => if isSpace c then trim_left s' else s
  | EmptyString => EmptyString
  end.

Fixpoint trim_right (s : string) : string :=
  match s with
  | String c s' =>
      match trim_right s' with
      | EmptyString => if isSpace c then EmptyString else String c EmptyString
      | r => String c r
      end
  | EmptyString => EmptyString
  end.

(** [QString::trimmed]: white space removed from both ends. *)
Definition trimmed (s : string) : string := trim_right (trim_left s).

Definition toLower_ascii (c : ascii) : ascii :=
  let n := nat_of_ascii c in
  if ((65 <=? n)%nat && (n <=? 90)%nat) then ascii_of_nat (n + 32) else c.

Fixpoint toLower (s : string) : string :=
  match s with
  | String c s' => String (toLower_ascii c) (toLower s')
  | EmptyString => EmptyString
  end.

(** [QString::number(int)]. *)
Definition number (z : Z) : string := NilZero.string_of_int (Z.to_int z).

(** ** Numbers *)

Definition INT_MIN : Z := - 2 ^ 31.
Definition INT_MAX : Z := 2 ^ 31 - 1.

Definition in_int (z : Z) : bool := (INT_MIN <=? z) && (z <=? INT_MAX).

(** A [double]. *)
Definition double : Type := float.

(** The implicit conversion of an integer ([int], [qint64]) to [double]:
    the nearest [double], which is the integer itself below 2^53. *)
Definition int_to_double (z : Z) : double :=
  SF2Prim (binary_normalize prec emax z 0 false).

(** The whole part of a [double] (its value with the fraction cut off);
    none for an infinity and for a NaN. *)
Definition truncate (d : double) : option Z :=
  match Prim2SF d with
  | S754_zero _ => Some 0
  | S754_finite s m e =>
      let magnitude :=
        match e with
        | Z0 => Zpos m
        | Zpos p => Zpos m * 2 ^ Zpos p
        | Zneg p => Zpos m / 2 ^ Zpos p
        end in
      Some (if s then - magnitude else magnitude)
  | S754_infinity _ | S754_nan => None
  end.

(** The implicit conversion of a [double] to [int]
    ([int timeoutDuration = secs_left * 1000]): the fraction is cut off,
    and the result is defined only when the whole part is an [int]. *)
Definition double_to_int (d : double) : option Z :=
  z ← truncate d; if in_int z then Some z else None.

(** A [qint64]. *)
Definition in_qint64 (z : Z) : bool := (- 2 ^ 63 <=? z) && (z <=? 2 ^ 63 - 1).

(** [qRound64]: the nearest whole number, a half rounded away from 0; it
    has a defined result when that number is a [qint64]. *)
Definition qRound64 (d : double) : option Z :=
  match Prim2SF d with
  | S754_zero _ => Some 0
  | S754_finite s m e =>
      let magnitude :=
        match e with
        | Z0 => Zpos m
        | Zpos p => Zpos m * 2 ^ Zpos p
        | Zneg p => (Zpos m + 2 ^ (Zpos p - 1)) / 2 ^ Zpos p
        end in
      let z := if s then - magnitude else magnitude in
      if in_qint64 z then Some z else None
  | S754_infinity _ | S754_nan => None
  end.

(** [QString::toInt(&ok)]: white space around the number is ignored, one
    sign is allowed, and the value has to fit an [int]. *)
Definition string_toInt (s : string) : Z * bool :=
  let t := trimmed s in
  let body := match t with
              | String "+" r =>
                  match r with
                  | String "-" _ => EmptyString
                  | _ => r
                  end
              | _ => t
              end in
  match NilZero.int_of_string body with
  | Some d => let z := Z.of_int d in if in_int z then (z, true) else (0, false)
  | None => (0, false)
  end.

(** ** Date and time *)

(** A [QDateTime] is either invalid ([None]) or an instant, counted in
    milliseconds since the epoch. *)
Definition QDateTime : Type := option Z.

Definition isValid (d : QDateTime) : bool :=
  match d with Some _ => true | None => false end.

(** [a.secsTo(b)]: the whole seconds from [a] to [b], rounded towards zero;
    0 when one of them is invalid. *)
Definition secsTo (a b : QDateTime) : Z :=
  match a, b with
  | Some x, Some y => Z.quot (y - x) 1000
  | _, _ => 0
  end.

(** ** Variants *)

Inductive QVariant : Type :=
| VInvalid
| VBool (b : bool)
| VInt (z : Z)
| VDouble (d : double)
| VString (s : string).

Definition v_isValid (v : QVariant) : bool :=
  match v with VInvalid => false | _ => true end.

Definition v_isNull (v : QVariant) : bool :=
  match v with VInvalid => true | _ => false end.

(** [QVariant::toBool]: a string is false when it is empty, ["0"] or
    ["false"] in any case. *)
Definition toBool (v : QVariant) : bool :=
  match v with
  | VInvalid => false
  | VBool b => b
  | VInt z => negb (z =? 0)
  | VDouble d => negb (PrimFloat.eqb d (int_to_double 0))
  | VString s =>
      negb (String.eqb s "" || String.eqb s "0" || String.eqb (toLower s) "false")
  end.

(** The low 32 bits of a number, read as an [int]. *)
Definition wrap_int (z : Z) : Z := (z + 2 ^ 31) mod 2 ^ 32 - 2 ^ 31.

(** [QVariant::toInt(&ok)]: a [double] is rounded to the nearest whole
    number (0 stands for a rounding without defined result, on which no
    property below relies); a number that is too large for an [int] is cut
    to its low bits and [ok] does not tell; a text has to be an [int]. *)
Definition toInt (v : QVariant) : Z * bool :=
  match v with
  | VInvalid => (0, false)
  | VBool b => (if b then 1 else 0, true)
  | VInt z => (wrap_int z, true)
  | VDouble d => (wrap_int (default 0 (qRound64 d)), true)
  | VString s => string_toInt s
  end.

(** [QVariant::toString]; [number_double] is [QString::number] for a
    [double]. *)
Definition toString (number_double : double -> string) (v : QVariant) : string :=
  match v with
  | VInvalid => ""
  | VBool b => if b then "true" else "false"
  | VInt z => number z
  | VDouble d => number_double d
  | VString s => s
  end.

(** ** Settings

    A [QSettings] object: the stack of groups opened with [beginGroup], the
    values held by the object, and the values last written to the file by
    [sync].  A key is looked up under the prefix of the open groups, and a
    value is kept as the variant it was set to: the text that the INI
    format makes of it is not part of the model. *)
Record QSettings : Type := mkSettings {
  groups : list string;
  cache : gmap string QVariant;
  stored : gmap string QVariant
}.

Definition groupPrefix (gs : list string) : string :=
  fold_right (fun g acc => g +:+ "/" +:+ acc) "" gs.

Definition actualKey (q : QSettings) (key : string) : string :=
  groupPrefix (groups q) +:+ key.

(** [QSettings(fileName, IniFormat)] over the content of the file. *)
Definition open (content : gmap string QVariant) : QSettings :=
  {| groups := []; cache := content; stored := content |}.

Definition beginGroup (g : string) (q : QSettings) : QSettings :=
  {| groups := (groups q ++ [g])%list; cache := cache q; stored := stored q |}.

Definition endGroup (q : QSettings) : QSettings :=
  {| groups := removelast (groups q); cache := cache q; stored := stored q |}.

(** [value(key, defaultValue)]; [value(key)] is [value key VInvalid]. *)
Definition value (key : string) (defaultValue : QVariant) (q : QSettings) : QVariant :=
  default defaultValue (cache q !! actualKey q key).

Definition setValue (key : string) (v : QVariant) (q : QSettings) : QSettings :=
  {| groups := groups q; cache := <[actualKey q key := v]> (cache q); stored := stored q |}.

Definition sync (q : QSettings) : QSettings :=
  {| groups := groups q; cache := cache q; stored := cache q |}.

(** ** Timer *)

Inductive QTimer : Type :=
| TimerInactive
| TimerActive (msec : Z).

Definition isActive (t : QTimer) : bool :=
  match t with TimerActive _ => true | TimerInactive => false end.

End Qt.

Import Qt.

(* ===================================================================== *)
(** * StringUtils *)
(* ===================================================================== *)

Module StringUtils.

(** Modelled from the spec: [StringUtils::splitFirst(s, sep)] for a string
    separator is declared in [StringUtils.h], which is not part of the
    sources at hand.  Following the parsing contract (a line is
    [Label: value], the text is cut at the first line end, and a field
    that is not there is the empty string), it cuts [s] at the first
    occurrence of [sep] and returns what is before and what is after; when
    [sep] does not occur the first part is [s] and the second is empty. *)
Fixpoint splitFirst (s sep : string) : string * string :=
  if String.prefix sep s then (EmptyString, String.substring (String.length sep) (String.length s - String.length sep) s)
  else match s with
       | EmptyString => (EmptyString, EmptyString)
       | String c s' => let (l, r) := splitFirst s' sep in (String c l, r)
       end.

(** Modelled from the spec: the overload of [splitFirst] for a single
    character separator, declared in the same absent header; same
    contract. *)
Fixpoint splitFirst_char (s : string) (sep : ascii) : string * string :=
  match s with
  | EmptyString => (EmptyString, EmptyString)
  | String c s' =>
      if Ascii.eqb c sep then (EmptyString, s')
      else let (l, r) := splitFirst_char s' sep in (String c l, r)
  end.

End StringUtils.

(* ===================================================================== *)
(** * The updater *)
(* ===================================================================== *)

(** The line feed character ['\n']. *)
Definition LF : ascii := ascii_of_nat 10.

(** What the build and the platform fix: the fields of [BuildConfig] used by
    the updater, the [Q_OS_WIN32] switch, Qt's conversion between a
    [QDateTime] and its [Qt::ISODate] text, and the text Qt gives to a
    [double]. *)
Record Platform : Type := mkPlatform {
  LAUNCHER_APP_BINARY_NAME : string;
  printableVersionString : string;
  Q_OS_WIN32 : bool;
  fromString_ISODate : string -> QDateTime;
  toString_ISODate : QDateTime -> string;
  number_double : double -> string
}.

(** [class PrismExternalUpdater::Private]. *)
Record Private : Type := mkPrivate {
  appDir : string;
  dataDir : string;
  updateTimer : QTimer;
  allowBeta : bool;
  autoCheck : bool;
  updateInterval : double;
  lastCheck : QDateTime;
  settings : QSettings
}.

(** The result codes of [UpdateAvailableDialog::exec()]: the three buttons,
    and any other code (the [switch] of [offerUpdate] has no default). *)
Inductive ResultCode : Type :=
| Install
| Skip
| DontInstall
| OtherCode.

(** What the operator and the system can observe. *)
Inductive Event : Type :=
| ProgressShown
| ProgressHidden
| ProcessStarted (program : string) (arguments : list string)
| ProcessStartedDetached (program : string) (arguments : list string)
| InformationBox (title text : string)
| WarningBox (title text detailed : string)
| UpdateAvailableDialog (currentVersion version_name release_notes : string)
| ApplicationExit.

(** What one run of the updater process delivers. *)
Record ProcessResult : Type := mkProcessResult {
  exitCode : Z;
  readAllStandardOutput : string;
  readAllStandardError : string
}.

(** The updater object: its private part, whether the timer's [timeout]
    signal is connected to [autoCheckTimerFired], and the events so far
    (latest last). *)
Record Updater : Type := mkUpdater {
  priv : Private;
  connected : bool;
  events : list Event
}.

Definition with_priv (f : Private -> Private) (u : Updater) : Updater :=
  {| priv := f (priv u); connected := connected u; events := events u |}.

Definition emit (e : Event) (u : Updater) : Updater :=
  {| priv := priv u; connected := connected u; events := (events u ++ [e])%list |}.

Definition set_updateTimer (t : QTimer) (p : Private) : Private :=
  {| appDir := appDir p; dataDir := dataDir p; updateTimer := t;
     allowBeta := allowBeta p; autoCheck := autoCheck p;
     updateInterval := updateInterval p; lastCheck := lastCheck p;
     settings := settings p |}.

Definition set_allowBeta (b : bool) (p : Private) : Private :=
  {| appDir := appDir p; dataDir := dataDir p; updateTimer := updateTimer p;
     allowBeta := b; autoCheck := autoCheck p;
     updateInterval := updateInterval p; lastCheck := lastCheck p;
     settings := settings p |}.

Definition set_autoCheck (b : bool) (p : Private) : Private :=
  {| appDir := appDir p; dataDir := dataDir p; updateTimer := updateTimer p;
     allowBeta := allowBeta p; autoCheck := b;
     updateInterval := updateInterval p; lastCheck := lastCheck p;
     settings := settings p |}.

Definition set_updateInterval (z : double) (p : Private) : Private :=
  {| appDir := appDir p; dataDir := dataDir p; updateTimer := updateTimer p;
     allowBeta := allowBeta p; autoCheck := autoCheck p;
     updateInterval := z; lastCheck := lastCheck p;
     settings := settings p |}.

Definition set_lastCheck (d : QDateTime) (p : Private) : Private :=
  {| appDir := appDir p; dataDir := dataDir p; updateTimer := updateTimer p;
     allowBeta := allowBeta p; autoCheck := autoCheck p;
     updateInterval := updateInterval p; lastCheck := d;
     settings := settings p |}.

Definition on_settings (f : QSettings -> QSettings) (p : Private) : Private :=
  {| appDir := appDir p; dataDir := dataDir p; updateTimer := updateTimer p;
     allowBeta := allowBeta p; autoCheck := autoCheck p;
     updateInterval := updateInterval p; lastCheck := lastCheck p;
     settings := f (settings p) |}.

(** [QDir::absoluteFilePath] and [QDir::absolutePath] on a directory that
    is given by its absolute path. *)
Definition absoluteFilePath (dir fileName : string) : string :=
  dir +:+ "/" +:+ fileName.

Definition absolutePath (dir : string) : string := dir.

(** ** The scheduler *)

(** [secs_left] as [resetAutoCheckTimer] computes it when there is a last
    check: the interval less the whole seconds since the last check, and 0
    when that is negative. *)
Definition secs_left (now : Z) (p : Private) : double :=
  let diff := secsTo (lastCheck p) (Some now) in
  let secs_left := PrimFloat.sub (updateInterval p) (int_to_double diff) in
  if PrimFloat.ltb secs_left (int_to_double 0) then int_to_double 0 else secs_left.

(** [secs_left * 1000], the milliseconds left as a [double]. *)
Definition millisecondsLeft (now : Z) (p : Private) : double :=
  PrimFloat.mul (secs_left now p) (int_to_double 1000).

(** [timeoutDuration] as [resetAutoCheckTimer] computes it when auto-check
    is on: 0 without a valid last check, else the milliseconds left
    converted to [int]. *)
Definition timeoutDuration (now : Z) (p : Private) : option Z :=
  if isValid (lastCheck p) then double_to_int (millisecondsLeft now p)
  else Some 0.

(** [PrismExternalUpdater::resetAutoCheckTimer], with the clock reading
    [now] of [QDateTime::currentDateTime()]. *)
Definition resetAutoCheckTimer (now : Z) (u : Updater) : option Updater :=
  if autoCheck (priv u) then
    d ← timeoutDuration now (priv u);
    Some (with_priv (set_updateTimer (TimerActive d)) u)
  else
    if isActive (updateTimer (priv u))
    then Some (with_priv (set_updateTimer TimerInactive) u)
    else Some u.

Definition connectTimer (u : Updater) : Updater :=
  {| priv := priv u; connected := true; events := events u |}.

Definition disconnectTimer (u : Updater) : Updater :=
  {| priv := priv u; connected := false; events := events u |}.

(** ** Construction and destruction *)

(** [PrismExternalUpdater::PrismExternalUpdater(appDir, dataDir)], over the
    [content] of [<dataDir>/prismlauncher_update.cfg] and the clock. *)
Definition PrismExternalUpdater (P : Platform) (appDir dataDir : string)
    (content : gmap string QVariant) (now : Z) : option Updater :=
  let settings := open content in
  let allowBeta := toBool (value "allow_beta" (VBool false) settings) in
  let autoCheck := toBool (value "auto_check" (VBool false) settings) in
  let '(interval, interval_ok) := toInt (value "update_interval" (VInt 86400) settings) in
  let updateInterval := int_to_double (if negb interval_ok then 86400 else interval) in
  let last_check := value "last_check" VInvalid settings in
  let lastCheck :=
    if negb (v_isNull last_check) && v_isValid last_check
    then fromString_ISODate P (toString (number_double P) last_check)
    else None in
  let u := {| priv := {| appDir := appDir; dataDir := dataDir;
                         updateTimer := TimerInactive;
                         allowBeta := allowBeta; autoCheck := autoCheck;
                         updateInterval := updateInterval;
                         lastCheck := lastCheck; settings := settings |};
              connected := false; events := [] |} in
  resetAutoCheckTimer now (connectTimer u).

(** [PrismExternalUpdater::~PrismExternalUpdater]: what is left is the
    content of the settings file. *)
Definition destroy (u : Updater) : gmap string QVariant :=
  let u := if isActive (updateTimer (priv u))
           then with_priv (set_updateTimer TimerInactive) u else u in
  let u := disconnectTimer u in
  stored (sync (settings (priv u))).

(** ** Preferences *)

Definition getAutomaticallyChecksForUpdates (u : Updater) : bool := autoCheck (priv u).
Definition getUpdateCheckInterval (u : Updater) : double := updateInterval (priv u).
Definition getBetaAllowed (u : Updater) : bool := allowBeta (priv u).

(** How a call that ends with [resetAutoCheckTimer] comes out: it returns,
    or it meets the conversion without defined result; the updater is the
    one at the return, or the one the call had reached when it met the
    conversion. *)
Inductive Run : Type :=
| Returned (u : Updater)
| Undefined (u : Updater).

Definition reached (r : Run) : Updater :=
  match r with Returned u | Undefined u => u end.

(** The last statement of the two setters. *)
Definition rearm (now : Z) (u : Updater) : Run :=
  match resetAutoCheckTimer now u with
  | Some u' => Returned u'
  | None => Undefined u
  end.

Definition setAutomaticallyChecksForUpdates (check : bool) (now : Z) (u : Updater) : Run :=
  let u := with_priv (set_autoCheck check) u in
  let u := with_priv (on_settings (setValue "auto_check" (VBool check))) u in
  let u := with_priv (on_settings sync) u in
  rearm now u.

Definition setUpdateCheckInterval (seconds : double) (now : Z) (u : Updater) : Run :=
  let u := with_priv (set_updateInterval seconds) u in
  let u := with_priv (on_settings (setValue "update_interval" (VDouble seconds))) u in
  let u := with_priv (on_settings sync) u in
  rearm now u.

Definition setBetaAllowed (allowed : bool) (u : Updater) : Updater :=
  let u := with_priv (set_allowBeta allowed) u in
  let u := with_priv (on_settings (setValue "auto_beta" (VBool allowed))) u in
  with_priv (on_settings sync) u.

(** ** Installing, offering, checking *)

Definition exe_name (P : Platform) : string :=
  let exe_name := LAUNCHER_APP_BINARY_NAME P +:+ "_updater" in
  if Q_OS_WIN32 P then exe_name +:+ ".exe" else exe_name.

(** [PrismExternalUpdater::performUpdate]: the updater is started detached
    and the application is told to exit.  [QCoreApplication::exit] makes
    the event loop return; the caller's statements that follow still run. *)
Definition performUpdate (P : Platform) (version_tag : string) (u : Updater) : Updater :=
  let args := ["--dir"; absolutePath (dataDir (priv u)); "--install-version"; version_tag] in
  let args := if allowBeta (priv u) then (args ++ ["--pre-release"])%list else args in
  let u := emit (ProcessStartedDetached (absoluteFilePath (appDir (priv u)) (exe_name P)) args) u in
  emit ApplicationExit u.

(** The body of [case UpdateAvailableDialog::Skip] in [offerUpdate]. *)
Definition markSkipped (version_tag : string) (u : Updater) : Updater :=
  let u := with_priv (on_settings (beginGroup "skip")) u in
  let u := with_priv (on_settings (setValue version_tag (VBool true))) u in
  let u := with_priv (on_settings endGroup) u in
  with_priv (on_settings sync) u.

(** [PrismExternalUpdater::offerUpdate]; [result] is what [dlg.exec()]
    returns if the dialog is shown.  [case Install] has no [break] or
    [return], so control continues into [case Skip]. *)
Definition offerUpdate (P : Platform) (version_name version_tag release_notes : string)
    (result : ResultCode) (u : Updater) : Updater :=
  let u := with_priv (on_settings (beginGroup "skip")) u in
  let should_skip := toBool (value version_tag (VBool false) (settings (priv u))) in
  let u := with_priv (on_settings endGroup) u in
  if should_skip then u
  else
    let u := emit (UpdateAvailableDialog (printableVersionString P) version_name release_notes) u in
    match result with
    | Install => markSkipped version_tag (performUpdate P version_tag u)
    | Skip => markSkipped version_tag u
    | DontInstall => u
    | OtherCode => u
    end.

(** The fields read from the standard output of the updater in
    [case 100] of [checkForUpdates]:
    [(version_name, version_tag, release_timestamp, release_notes)]. *)
Definition parseUpdateAvailable (P : Platform) (std_output : string)
    : string * string * QDateTime * string :=
  let '(first_line, remainder1) := StringUtils.splitFirst_char std_output LF in
  let '(second_line, remainder2) := StringUtils.splitFirst_char remainder1 LF in
  let '(third_line, release_notes) := StringUtils.splitFirst_char remainder2 LF in
  let version_name := trimmed (snd (StringUtils.splitFirst first_line ": ")) in
  let version_tag := trimmed (snd (StringUtils.splitFirst second_line ": ")) in
  let release_timestamp :=
    fromString_ISODate P (trimmed (snd (StringUtils.splitFirst third_line ": "))) in
  (version_name, version_tag, release_timestamp, release_notes).

(** [PrismExternalUpdater::checkForUpdates]: [proc] is what the updater
    process delivers, [result] the operator's answer should the offer be
    shown, [now] the clock when the check is recorded. *)
Definition checkForUpdates (P : Platform) (proc : ProcessResult) (result : ResultCode)
    (now : Z) (u : Updater) : Updater :=
  let u := emit ProgressShown u in
  let args := ["--check-only"; "--dir"; absolutePath (dataDir (priv u)); "--debug"] in
  let args := if allowBeta (priv u) then (args ++ ["--pre-release"])%list else args in
  let u := emit (ProcessStarted (absoluteFilePath (appDir (priv u)) (exe_name P)) args) u in
  let exit_code := exitCode proc in
  let std_output := readAllStandardOutput proc in
  let std_error := readAllStandardError proc in
  let u := emit ProgressHidden u in
  let u :=
    if exit_code =? 0 then
      emit (InformationBox "No Update Available" "You are running the latest version.") u
    else if exit_code =? 1 then
      emit (WarningBox "Update Check Error" "There was an error running the update check." std_error) u
    else if exit_code =? 100 then
      let '(version_name, version_tag, release_timestamp, release_notes) :=
        parseUpdateAvailable P std_output in
      offerUpdate P version_name version_tag release_notes result u
    else u in
  let u := with_priv (set_lastCheck (Some now)) u in
  let u := with_priv (on_settings
             (setValue "last_check" (VString (toString_ISODate P (lastCheck (priv u)))))) u in
  with_priv (on_settings sync) u.

(** [PrismExternalUpdater::autoCheckTimerFired]. *)
Definition autoCheckTimerFired (P : Platform) (proc : ProcessResult) (result : ResultCode)
    (now : Z) (u : Updater) : Updater :=
  checkForUpdates P proc result now u.

(** The skip list as [offerUpdate] reads it: the entry of [version_tag] in
    the group [skip], false when there is none. *)
Definition skipEntry (version_tag : string) (q : QSettings) : bool :=
  toBool (value version_tag (VBool false) (beginGroup "skip" q)).

(** Between two calls no group is open on the settings object. *)
Definition idle (u : Updater) : Prop := groups (settings (priv u)) = [].

(** ** A concrete platform

    For the examples: a build called [prismlauncher], version 8.0, not on
    Windows, whose ISO dates have the form [YYYY-MM-DDTHH:MM:SS] and are
    read as UTC. *)

Definition digit (c : ascii) : option Z :=
  let n := Z.of_nat (nat_of_ascii c) in
  if (48 <=? n) && (n <=? 57) then Some (n - 48) else None.

Definition two_digits (a b : ascii) : option Z :=
  x ← digit a; y ← digit b; Some (10 * x + y).

Definition is_leap (y : Z) : bool :=
  ((y mod 4 =? 0) && negb (y mod 100 =? 0)) || (y mod 400 =? 0).

Definition days_in_month (y m : Z) : Z :=
  if m =? 2 then (if is_leap y then 29 else 28)
  else if (m =? 4) || (m =? 6) || (m =? 9) || (m =? 11) then 30 else 31.

(** Days from 1970-01-01 to the given day of the Gregorian calendar. *)
Definition days_from_civil (y m d : Z) : Z :=
  let y := if m <=? 2 then y - 1 else y in
  let era := y / 400 in
  let yoe := y - era * 400 in
  let doy := (153 * (if 2 <? m then m - 3 else m + 9) + 2) / 5 + d - 1 in
  let doe := yoe * 365 + yoe / 4 - yoe / 100 + doy in
  era * 146097 + doe - 719468.

(** The inverse: year, month and day of a day number. *)
Definition civil_from_days (z : Z) : Z * Z * Z :=
  let z := z + 719468 in
  let era := z / 146097 in
  let doe := z - era * 146097 in
  let yoe := (doe - doe / 1460 + doe / 36524 - doe / 146096) / 365 in
  let doy := doe - (365 * yoe + yoe / 4 - yoe / 100) in
  let mp := (5 * doy + 2) / 153 in
  let d := doy - (153 * mp + 2) / 5 + 1 in
  let m := if mp <? 10 then mp + 3 else mp - 9 in
  let y := yoe + era * 400 in
  (if m <=? 2 then y + 1 else y, m, d).

Definition example_fromString (s : string) : QDateTime :=
  match s with
  | String y1 (String y2 (String y3 (String y4 (String "-" (String mo1 (String mo2
      (String "-" (String d1 (String d2 (String "T" (String h1 (String h2 (String ":"
        (String m1 (String m2 (String ":" (String s1 (String s2 EmptyString)))))))))))))))))) =>
      yh ← two_digits y1 y2; yl ← two_digits y3 y4;
      mo ← two_digits mo1 mo2; day ← two_digits d1 d2;
      hh ← two_digits h1 h2; mm ← two_digits m1 m2; ss ← two_digits s1 s2;
      let y := 100 * yh + yl in
      if (1 <=? mo) && (mo <=? 12) && (1 <=? day) && (day <=? days_in_month y mo)
         && (hh <? 24) && (mm <? 60) && (ss <? 60)
      then Some ((((days_from_civil y mo day * 24 + hh) * 60 + mm) * 60 + ss) * 1000)
      else None
  | _ => None
  end.

Definition pad (width : nat) (z : Z) : string :=
  let t := number z in
  String.concat "" (repeat "0" (width - String.length t)) +:+ t.

Definition example_toString (d : QDateTime) : string :=
  match d with
  | Some t =>
      let secs := t / 1000 in
      let '(y, m, dd) := civil_from_days (secs / 86400) in
      let r := secs mod 86400 in
      pad 4 y +:+ "-" +:+ pad 2 m +:+ "-" +:+ pad 2 dd +:+ "T" +:+
      pad 2 (r / 3600) +:+ ":" +:+ pad 2 (r mod 3600 / 60) +:+ ":" +:+ pad 2 (r mod 60)
  | None => ""
  end.

(** The text of a [double] on the example platform: the numeral of its
    whole part, and [nan] for what has none. *)
Definition example_number (d : double) : string :=
  match truncate d with
  | Some z => number z
  | None => "nan"
  end.

Definition examplePlatform : Platform :=
  {| LAUNCHER_APP_BINARY_NAME := "prismlauncher";
     printableVersionString := "8.0";
     Q_OS_WIN32 := false;
     fromString_ISODate := example_fromString;
     toString_ISODate := example_toString;
     number_double := example_number |}.

(** ** Concrete states

    An updater as the constructor leaves it, with the given preferences and
    last check, over the given content of the settings file. *)
Definition exampleUpdater (auto : bool) (interval : Z) (last : QDateTime)
    (timer : QTimer) (content : gmap string QVariant) : Updater :=
  {| priv := {| appDir := "/opt/prismlauncher";
                dataDir := "/home/user/PrismLauncher";
                updateTimer := timer;
                allowBeta := false; autoCheck := auto;
                updateInterval := int_to_double interval; lastCheck := last;
                settings := open content |};
     connected := true; events := [] |}.

(** 2024-01-01T00:00:00, in milliseconds. *)
Definition newYear2024 : Z := 1704067200000.

(** Settings files: auto-check on with a check recorded at the start of
    2024; the same with an interval of thirty days; the same with a check
    recorded ten seconds later. *)
Definition checkedAtNewYear : gmap string QVariant :=
  <["auto_check" := VBool true]> {["last_check" := VString "2024-01-01T00:00:00"]}.

Definition thirtyDays : gmap string QVariant :=
  <["update_interval" := VInt 2592000]> checkedAtNewYear.


(** ** Vocabulary of the parsing contract *)

(** Whether the character [c] occurs in [s]. *)
Fixpoint occurs (c : ascii) (s : string) : bool :=
  match s with
  | EmptyString => false
  | String a s' => Ascii.eqb a c || occurs c s'
  end.

(** A line [Label: value] ended by a line feed. *)
Definition labelled (label value : string) : string :=
  label +:+ ": " +:+ value +:+ String LF EmptyString.

(** The standard output of the example in the specification. *)
Definition exampleOutput : string :=
  labelled "Version" "1.2.3" +:+ labelled "Tag" "v1.2.3"
  +:+ labelled "Timestamp" "2024-01-01T00:00:00" +:+ "Fixed bugs." +:+ String LF EmptyString.


(** ** Vocabulary of the preferences *)

(** The timer of [u] is as [resetAutoCheckTimer] leaves it at [now]. *)
Definition rearmed (now : Z) (u : Updater) : Prop :=
  resetAutoCheckTimer now u = Some u.

(* ===================================================================== *)
(** * QString::arg *)
(* ===================================================================== *)

Module QStringArg.

(** [QString::arg] looks for place markers: a percent sign, an optional
    [L], and one or two digits.  The text is scanned from left to right;
    [Token]s are the plain characters and the markers found, each marker
    with its number and its text. *)
Inductive Token : Type :=
| TChar (c : ascii)
| TEscape (n : nat) (text : string).

Inductive ScanState : Type :=
| Normal
| Percent
| PercentL
| Digit (text : string) (n : nat).

Definition digitValue (c : ascii) : option nat :=
  let n := nat_of_ascii c in
  if ((48 <=? n) && (n <=? 57))%nat then Some (n - 48)%nat else None.

Definition isPercent (c : ascii) : bool := Ascii.eqb c "%".

Definition finish (st : ScanState) : list Token :=
  match st with
  | Normal => []
  | Percent => [TChar "%"]
  | PercentL => [TChar "%"; TChar "L"]
  | Digit text n => [TEscape n text]
  end.

Fixpoint scan (st : ScanState) (s : string) : list Token :=
  match s with
  | EmptyString => finish st
  | String c s' =>
      let plain := if isPercent c then scan Percent s' else TChar c :: scan Normal s' in
      match st with
      | Normal => plain
      | Percent =>
          if Ascii.eqb c "L" then scan PercentL s'
          else match digitValue c with
               | Some d => scan (Digit (String "%" (String c EmptyString)) d) s'
               | None => TChar "%" :: plain
               end
      | PercentL =>
          match digitValue c with
          | Some d => scan (Digit (String "%" (String "L" (String c EmptyString))) d) s'
          | None => TChar "%" :: TChar "L" :: plain
          end
      | Digit text n =>
          match digitValue c with
          | Some d => TEscape (10 * n + d) (text +:+ String c EmptyString) :: scan Normal s'
          | None => TEscape n text :: plain
          end
      end
  end.

(** The lowest marker number of a text, if it has a marker. *)
Fixpoint min_escape (ts : list Token) : option nat :=
  match ts with
  | [] => None
  | TChar _ :: ts' => min_escape ts'
  | TEscape n _ :: ts' =>
      match min_escape ts' with
      | Some m => Some (Nat.min n m)
      | None => Some n
      end
  end.

Fixpoint render (m : nat) (a : string) (ts : list Token) : string :=
  match ts with
  | [] => EmptyString
  | TChar c :: ts' => String c (render m a ts')
  | TEscape n text :: ts' =>
      (if (n =? m)%nat then a else text) +:+ render m a ts'
  end.

(** [s.arg(a)]: every occurrence of the lowest-numbered place marker of
    [s] is replaced by [a]; a text without marker is returned as it is. *)
Definition arg (a : string) (s : string) : string :=
  let ts := scan Normal s in
  match min_escape ts with
  | Some m => render m a ts
  | None => s
  end.

End QStringArg.

(* ===================================================================== *)
(** * The Flame API *)
(* ===================================================================== *)

Module ModPlatform.

(** The bits of [ModPlatform::ModLoaderType] that [FlameAPI] tests.  The
    enumeration is declared in [modplatform/ModIndex.h], which is not part
    of the sources at hand: the values of its enumerators are taken as
    they come. *)
Record ModLoaderBits : Type := mkModLoaderBits {
  NeoForge : Z;
  Forge : Z;
  Fabric : Z;
  Quilt : Z
}.

Inductive ResourceProvider : Type :=
| MODRINTH
| FLAME.

(** [ModPlatform::ResourceType]: the two enumerators that [FlameAPI] names,
    and any other one. *)
Inductive ResourceType : Type :=
| MOD
| RESOURCE_PACK
| OtherResourceType.

Definition ResourceProvider_eqb (a b : ResourceProvider) : bool :=
  match a, b with
  | MODRINTH, MODRINTH | FLAME, FLAME => true
  | _, _ => false
  end.

(** An entry of the table returned by [ModPlatform::getOverrideDeps()]. *)
Record OverrideDep : Type := mkOverrideDep {
  quilt : string;
  fabric : string;
  slug : string;
  provider : ResourceProvider
}.

End ModPlatform.

Module FlameAPI.

Import ModPlatform QStringArg.

(** [ResourceAPI::DependencySearchArgs], with the identifier of the
    dependency and the game version already as text
    ([args.dependency.addonId.toString()], [args.mcVersion.toString()]). *)
Record DependencySearchArgs : Type := mkDependencySearchArgs {
  addonId : string;
  mcVersion : string;
  loader : Z
}.

(** [ResourceAPI::SortingMethod]. *)
Record SortingMethod : Type := mkSortingMethod {
  index : Z;
  name : string;
  readable_name : string
}.

(** [ResourceAPI::SearchArgs]; a game version is its text
    ([Version::toString()]). *)
Record SearchArgs : Type := mkSearchArgs {
  type : ResourceType;
  offset : Z;
  search : option string;
  sorting : option SortingMethod;
  loaders : option Z;
  versions : option (list string)
}.

(** [ResourceAPI::VersionSearchArgs], with [args.pack.addonId.toString()]
    as text. *)
Record VersionSearchArgs : Type := mkVersionSearchArgs {
  pack_addonId : string;
  mcVersions : option (list string)
}.

(** [std::list::front()]: the first element; on an empty list the call has
    no defined result. *)
Definition front {A : Type} (l : list A) : option A := head l.

(** [QStringList::join]. *)
Definition join (l : list string) (sep : string) : string := String.concat sep l.

Definition getClassId (type : ResourceType) : Z :=
  match type with
  | RESOURCE_PACK => 12
  | MOD | OtherResourceType => 6
  end.

Section WithTables.

(** The enumerators and the table of overrides of the build. *)
Variable bits : ModLoaderBits.
Variable overrideDeps : list OverrideDep.

(** [loaders & flag] converted to [bool]. *)
Definition testFlag (loaders flag : Z) : bool := negb (Z.land loaders flag =? 0).

Definition validateModLoaders (loaders : Z) : bool :=
  testFlag loaders (Z.lor (Z.lor (Z.lor (NeoForge bits) (Forge bits)) (Fabric bits)) (Quilt bits)).

Definition getMappedModLoader (loaders : Z) : Z :=
  if testFlag loaders (Forge bits) then 1
  else if testFlag loaders (Fabric bits) then 4
  else if testFlag loaders (Quilt bits) then 5
  else if testFlag loaders (NeoForge bits) then 6
  else 0.

(** The predicate handed to [std::find_if] in [getDependencyURL]. *)
Definition overrides (addonId : string) (dep : OverrideDep) : bool :=
  ResourceProvider_eqb (provider dep) FLAME && String.eqb addonId (quilt dep).

Definition getDependencyURL (args : DependencySearchArgs) : option string :=
  let mappedModLoader := getMappedModLoader (loader args) in
  let addonId := addonId args in
  let mappedModLoader :=
    if testFlag (loader args) (Quilt bits) then
      match find (overrides addonId) overrideDeps with
      | Some _ => 5
      | None => mappedModLoader
      end
    else mappedModLoader in
  Some (arg (number mappedModLoader)
         (arg (mcVersion args)
           (arg addonId
              "https://api.curseforge.com/v1/mods/%1/files?pageSize=10000&gameVersion=%2&modLoaderType=%3"))).

Definition getModLoaderStrings (types : Z) : list string :=
  fold_left
    (fun l loader =>
       if testFlag types loader
       then (l ++ [number (getMappedModLoader loader)])%list
       else l)
    [NeoForge bits; Forge bits; Fabric bits; Quilt bits] [].

Definition getModLoaderFilters (types : Z) : string :=
  "[" +:+ join (getModLoaderStrings types) "," +:+ "]".

(** [getSearchURL]; the outer [None] is the call of [front()] on an empty
    list of versions, the inner option is the [std::optional] returned. *)
Definition getSearchURL (args : SearchArgs) : option (option string) :=
  gameVersionStr ←
    match versions args with
    | Some vs => v ← front vs; Some (arg v "gameVersion=%1")
    | None => Some EmptyString
    end;
  let get_arguments := [] in
  let get_arguments :=
    (get_arguments ++ [arg (number (getClassId (type args))) "classId=%1"])%list in
  let get_arguments := (get_arguments ++ [arg (number (offset args)) "index=%1"])%list in
  let get_arguments := (get_arguments ++ ["pageSize=25"])%list in
  let get_arguments :=
    match search args with
    | Some text => (get_arguments ++ [arg text "searchFilter=%1"])%list
    | None => get_arguments
    end in
  let get_arguments :=
    match sorting args with
    | Some method => (get_arguments ++ [arg (number (index method)) "sortField=%1"])%list
    | None => get_arguments
    end in
  let get_arguments := (get_arguments ++ ["sortOrder=desc"])%list in
  let get_arguments :=
    match loaders args with
    | Some types =>
        (get_arguments ++ [arg (getModLoaderFilters types) "modLoaderTypes=%1"])%list
    | None => get_arguments
    end in
  let get_arguments := (get_arguments ++ [gameVersionStr])%list in
  Some (Some ("https://api.curseforge.com/v1/mods/search?gameId=432&"
              +:+ join get_arguments "&")).

Definition getInfoURL (id : string) : option string :=
  Some (arg id "https://api.curseforge.com/v1/mods/%1").

(** [getVersionsURL]; the outer [None] is [front()] on an empty list. *)
Definition getVersionsURL (args : VersionSearchArgs) : option (option string) :=
  let addonId := pack_addonId args in
  let url := arg addonId "https://api.curseforge.com/v1/mods/%1/files?pageSize=10000&" in
  let get_parameters := [] in
  get_parameters ←
    match mcVersions args with
    | Some vs => v ← front vs; Some (get_parameters ++ [arg v "gameVersion=%1"])%list
    | None => Some get_parameters
    end;
  Some (Some (url +:+ join get_parameters "&")).

(** The same mapping in the words of its description: the first of Forge,
    Fabric, Quilt and NeoForge that is set decides, and 0 stands for
    none. *)
Definition loaderPriority : list (Z * Z) :=
  [(Forge bits, 1); (Fabric bits, 4); (Quilt bits, 5); (NeoForge bits, 6)].

Definition firstLoaderId (loaders : Z) : Z :=
  match find (fun e => testFlag loaders (fst e)) loaderPriority with
  | Some e => snd e
  | None => 0
  end.

(** The template of [getDependencyURL] filled with an identifier, a game
    version and a loader id. *)
Definition filledTemplate (addonId mcVersion : string) (modLoaderType : Z) : string :=
  arg (number modLoaderType)
    (arg mcVersion
      (arg addonId
         "https://api.curseforge.com/v1/mods/%1/files?pageSize=10000&gameVersion=%2&modLoaderType=%3")).

(** The URL of the dependency versions, written out. *)
Definition dependencyURL (addonId mcVersion : string) (modLoaderType : Z) : string :=
  "https://api.curseforge.com/v1/mods/" +:+ addonId
  +:+ "/files?pageSize=10000&gameVersion=" +:+ mcVersion
  +:+ "&modLoaderType=" +:+ number modLoaderType.

(** The override table has a Flame entry whose Quilt project is [id]. *)
Definition overridden (id : string) : Prop :=
  exists dep, In dep overrideDeps /\ provider dep = FLAME /\ quilt dep = id.

End WithTables.

(** Bits for the examples: each loader has a bit of its own. *)
Definition exampleBits : ModLoaderBits :=
  {| NeoForge := 1; Forge := 2; Fabric := 16; Quilt := 32 |}.

(** A table for the examples: one Flame entry, whose Quilt project is
    634179, and one entry of the other provider. *)
Definition exampleOverrides : list OverrideDep :=
  [ {| quilt := "qvIfYCYJ"; fabric := "P7dR8mSH"; slug := "api"; provider := MODRINTH |};
    {| quilt := "634179"; fabric := "306612"; slug := "api"; provider := FLAME |} ].

End FlameAPI.

(** ** Vocabulary of further properties *)

(** The settings file holds what the settings object holds. *)
Definition synced (u : Updater) : Prop :=
  stored (settings (priv u)) = cache (settings (priv u)).

(** The updater [u'] has the timer, the preferences, the directories and
    the signal connection of [u]. *)
Definition sameControls (u u' : Updater) : Prop :=
  updateTimer (priv u') = updateTimer (priv u) /\
  autoCheck (priv u') = autoCheck (priv u) /\
  updateInterval (priv u') = updateInterval (priv u) /\
  allowBeta (priv u') = allowBeta (priv u) /\
  appDir (priv u') = appDir (priv u) /\
  dataDir (priv u') = dataDir (priv u) /\
  connected u' = connected u.

(** The updater as the constructor has it when it comes to arm the timer:
    the fields read from the [content] of the settings file. *)
Definition loaded (P : Platform) (appDir dataDir : string)
    (content : gmap string QVariant) : Updater :=
  let last_check := default VInvalid (content !! "last_check") in
  let interval := toInt (default (VInt 86400) (content !! "update_interval")) in
  {| priv := {| appDir := appDir; dataDir := dataDir;
                updateTimer := TimerInactive;
                allowBeta := toBool (default (VBool false) (content !! "allow_beta"));
                autoCheck := toBool (default (VBool false) (content !! "auto_check"));
                updateInterval :=
                  int_to_double (if negb (snd interval) then 86400 else fst interval);
                lastCheck :=
                  if negb (v_isNull last_check) && v_isValid last_check
                  then fromString_ISODate P (toString (number_double P) last_check)
                  else None;
                settings := open content |};
     connected := true; events := [] |}.

(** A new updater over the settings file that [u] has written reads the
    preference [get] as [x]: the constructor has it so when it comes to arm
    the timer, and so has every updater that the constructor returns. *)
Definition readsBack {A : Type} (P : Platform) (get : Updater -> A) (x : A) (u : Updater) : Prop :=
  forall appDir dataDir,
    get (loaded P appDir dataDir (stored (settings (priv u)))) = x /\
    forall now v,
      PrismExternalUpdater P appDir dataDir (stored (settings (priv u))) now = Some v ->
      get v = x.

(** The three events that open every run of [checkForUpdates]. *)
Definition checkEvents (P : Platform) (u : Updater) : list Event :=
  [ProgressShown;
   ProcessStarted (absoluteFilePath (appDir (priv u)) (exe_name P))
     (["--check-only"; "--dir"; absolutePath (dataDir (priv u)); "--debug"]
      ++ (if allowBeta (priv u) then ["--pre-release"] else []))%list;
   ProgressHidden].

(** The bits of the four loaders are set and no two of them share a bit. *)
Definition separateBits (bits : ModPlatform.ModLoaderBits) : Prop :=
  ModPlatform.NeoForge bits <> 0 /\ ModPlatform.Forge bits <> 0 /\
  ModPlatform.Fabric bits <> 0 /\ ModPlatform.Quilt bits <> 0 /\
  Z.land (ModPlatform.NeoForge bits) (ModPlatform.Forge bits) = 0 /\
  Z.land (ModPlatform.NeoForge bits) (ModPlatform.Fabric bits) = 0 /\
  Z.land (ModPlatform.NeoForge bits) (ModPlatform.Quilt bits) = 0 /\
  Z.land (ModPlatform.Forge bits) (ModPlatform.Fabric bits) = 0 /\
  Z.land (ModPlatform.Forge bits) (ModPlatform.Quilt bits) = 0 /\
  Z.land (ModPlatform.Fabric bits) (ModPlatform.Quilt bits) = 0.

(** A request parameter [&key=value], or nothing. *)
Definition parameter (key : string) (value : option string) : string :=
  match value with
  | Some v => "&" +:+ key +:+ "=" +:+ v
  | None => EmptyString
  end.

(** The carriage return character. *)
Definition CR : ascii := ascii_of_nat 13.

(** A line [Label: value] ended by carriage return and line feed. *)
Definition labelledCRLF (label value : string) : string :=
  label +:+ ": " +:+ value +:+ String CR (String LF EmptyString).

(** ** More concrete inputs *)

(** The updater reports version 1.2.3 as available. *)
Definition updateAvailable : ProcessResult :=
  {| exitCode := 100; readAllStandardOutput := exampleOutput; readAllStandardError := "" |}.

(** The updater fails, or ends with a code nobody knows. *)
Definition checkFailed : ProcessResult :=
  {| exitCode := 1; readAllStandardOutput := ""; readAllStandardError := "network down" |}.

Definition checkCrashed : ProcessResult :=
  {| exitCode := 139; readAllStandardOutput := ""; readAllStandardError := "" |}.

(** An updater over an empty settings file. *)
Definition freshUpdater : Updater := exampleUpdater false 86400 None TimerInactive ∅.

Example example_fromString_2024 :
  example_fromString "2024-01-01T00:00:00" = Some 1704067200000.
Proof. reflexivity. Qed.

Example example_toString_2024 :
  example_toString (Some 1704067200000) = "2024-01-01T00:00:00".
Proof. reflexivity. Qed.

Example trimmed_both_ends : trimmed "  v1.2.3 " = "v1.2.3".
Proof. reflexivity. Qed.

Example splitFirst_value : StringUtils.splitFirst "Tag: v1.2.3" ": " = ("Tag", "v1.2.3").
Proof. reflexivity. Qed.

Example toInt_text : toInt (VString " 3600 ") = (3600, true).
Proof. reflexivity. Qed.

Example toInt_low_bits : toInt (VDouble (int_to_double 4294967297)) = (1, true).
Proof. reflexivity. Qed.

Example toInt_rounds :
  toInt (VDouble 1.5%float) = (2, true) /\ toInt (VDouble (-2.5)%float) = (-3, true).
Proof. split; reflexivity. Qed.

Example int_to_double_day : int_to_double 86400 = 86400%float.
Proof. reflexivity. Qed.

Example double_to_int_fraction : double_to_int 1999.5%float = Some 1999.
Proof. reflexivity. Qed.

(* ===================================================================== *)
(** * Properties of double *)
(* ===================================================================== *)

Section Double.

Implicit Types (x : double) (z : Z).

(** Rounding keeps the sign. *)
Lemma binary_round_aux_sign sx mx ex lx :
  match binary_round_aux prec emax sx mx ex lx with
  | S754_zero s | S754_infinity s | S754_finite s _ _ => s = sx
  | S754_nan => True
  end.
Proof.
  unfold binary_round_aux.
  destruct (shr_fexp prec emax mx ex lx) as [mrs' e'].
  destruct (shr_fexp prec emax _ e' loc_Exact) as [mrs'' e''].
  destruct (shr_m mrs''); [reflexivity| |exact I].
  destruct (Z.leb e'' (emax - prec)); reflexivity.
Qed.

(** The whole part of a [double] that is not below zero is not negative. *)
Lemma truncate_sign x z :
  truncate x = Some z ->
  (forall m e, Prim2SF x <> S754_finite true m e) ->
  0 <= z.
Proof.
  unfold truncate. intros H Hs.
  destruct (Prim2SF x) as [s|s| |s m e]; try discriminate H.
  - injection H as <-. lia.
  - destruct s; [exfalso; now apply (Hs m e)|].
    injection H as <-. destruct e as [|p|p]; [lia|lia|]. apply Z.div_pos; lia.
Qed.

(** The product with 1000 of a [double] that is not below zero is not below
    zero. *)
Lemma mul_1000_not_negative x :
  (forall m e, Prim2SF x <> S754_finite true m e) ->
  forall m e, Prim2SF (PrimFloat.mul x (int_to_double 1000)) <> S754_finite true m e.
Proof.
  intros Hs m e. rewrite mul_spec.
  change (Prim2SF (int_to_double 1000)) with (S754_finite false 8796093022208000 (-43)).
  unfold SF64mul, SFmul.
  destruct (Prim2SF x) as [s|s| |s mx ex]; try discriminate.
  destruct s; [exfalso; now apply (Hs mx ex)|].
  pose proof (binary_round_aux_sign (xorb false false)
                (Zpos (Pos.mul mx 8796093022208000)) (Z.add ex (-43)) loc_Exact) as H.
  intros E. rewrite E in H. discriminate H.
Qed.


End Double.

(* ===================================================================== *)
(** * Properties of the scheduler *)
(* ===================================================================== *)

Section Scheduler.

Implicit Types (u : Updater) (now t : Z) (p : Private).

Lemma in_int_true z : INT_MIN <= z <= INT_MAX -> in_int z = true.
Proof. unfold in_int. intros [H1 H2]. apply andb_true_intro. split; lia. Qed.

(** The seconds left are not below zero. *)
Lemma secs_left_not_below_zero now p :
  PrimFloat.ltb (secs_left now p) (int_to_double 0) = false.
Proof.
  unfold secs_left. cbv zeta.
  set (left := PrimFloat.sub (updateInterval p) _).
  destruct (PrimFloat.ltb left (int_to_double 0)) eqn:H; [reflexivity | exact H].
Qed.

Lemma secs_left_not_negative now p m e :
  Prim2SF (secs_left now p) <> S754_finite true m e.
Proof.
  pose proof (secs_left_not_below_zero now p) as H. rewrite ltb_spec in H.
  intros E. rewrite E in H. vm_compute in H. discriminate H.
Qed.

Lemma millisecondsLeft_not_negative now p m e :
  Prim2SF (millisecondsLeft now p) <> S754_finite true m e.
Proof. apply mul_1000_not_negative. apply secs_left_not_negative. Qed.

Lemma timeoutDuration_no_check now p :
  lastCheck p = None -> timeoutDuration now p = Some 0.
Proof. unfold timeoutDuration. intros ->. reflexivity. Qed.

Lemma timeoutDuration_check now p t :
  lastCheck p = Some t -> timeoutDuration now p = double_to_int (millisecondsLeft now p).
Proof. unfold timeoutDuration. intros ->. reflexivity. Qed.

(** The delay handed to the timer is an [int] that is not negative. *)
Lemma timeoutDuration_range now p d :
  timeoutDuration now p = Some d -> 0 <= d <= INT_MAX.
Proof.
  unfold timeoutDuration. destruct (isValid (lastCheck p)).
  - unfold double_to_int.
    destruct (truncate (millisecondsLeft now p)) as [z|] eqn:Hz; [|discriminate].
    cbn. unfold in_int. destruct (Z.leb_spec INT_MIN z); [|discriminate].
    destruct (Z.leb_spec z INT_MAX); [|discriminate].
    cbn. intros [= <-]. split; [|assumption].
    apply (truncate_sign _ _ Hz). apply millisecondsLeft_not_negative.
  - intros [= <-]. unfold INT_MAX. lia.
Qed.

(** More milliseconds than an [int] holds have no defined conversion. *)
Lemma timeoutDuration_overflow now p t z :
  lastCheck p = Some t ->
  truncate (millisecondsLeft now p) = Some z -> INT_MAX < z ->
  timeoutDuration now p = None.
Proof.
  intros Hl Hz Hmax. rewrite (timeoutDuration_check now p t Hl).
  unfold double_to_int. rewrite Hz. cbn. unfold in_int.
  destruct (Z.leb_spec z INT_MAX); [lia|]. now rewrite andb_false_r.
Qed.

Lemma resetAutoCheckTimer_disabled now u :
  autoCheck (priv u) = false ->
  resetAutoCheckTimer now u = Some (with_priv (set_updateTimer TimerInactive) u).
Proof.
  unfold resetAutoCheckTimer. intros ->.
  destruct u as [[a d tm b c i l s] cn ev]. cbn.
  destruct tm; reflexivity.
Qed.

Lemma resetAutoCheckTimer_enabled now u d :
  autoCheck (priv u) = true ->
  timeoutDuration now (priv u) = Some d ->
  resetAutoCheckTimer now u = Some (with_priv (set_updateTimer (TimerActive d)) u).
Proof. unfold resetAutoCheckTimer. intros -> ->. reflexivity. Qed.

Lemma resetAutoCheckTimer_undefined now u :
  autoCheck (priv u) = true ->
  timeoutDuration now (priv u) = None ->
  resetAutoCheckTimer now u = None.
Proof. unfold resetAutoCheckTimer. intros -> ->. reflexivity. Qed.

(** The timer is all that [resetAutoCheckTimer] touches. *)
Lemma resetAutoCheckTimer_frame now u u' :
  resetAutoCheckTimer now u = Some u' ->
  exists tm, u' = with_priv (set_updateTimer tm) u.
Proof.
  unfold resetAutoCheckTimer.
  destruct (autoCheck (priv u)).
  - destruct (timeoutDuration now (priv u)) as [d|]; cbn; [|discriminate].
    intros [= <-]. eauto.
  - destruct (isActive (updateTimer (priv u))) eqn:E; intros [= <-]; [eauto|].
    exists TimerInactive. destruct u as [[a d tm b c i l s] cn ev]. cbn in *.
    destruct tm; [reflexivity|discriminate].
Qed.

(** C5.  What [resetAutoCheckTimer] does in each preference state.  With
    auto-check off the timer is not active.  With auto-check on and no
    valid last check it is armed with delay 0.  With auto-check on and a
    last check, let [z] be the whole milliseconds left
    ([max 0 (updateInterval - seconds since the last check)], times 1000):
    [z] is not negative; when [z] is an [int] the timer is armed with [z];
    and when [z] is above the largest [int], the conversion to the [int]
    handed to the timer has no defined result, [resetAutoCheckTimer] has
    none either, and no [int] is the delay [z]. *)
Theorem resetAutoCheckTimer_cases now u :
  (autoCheck (priv u) = false ->
     resetAutoCheckTimer now u = Some (with_priv (set_updateTimer TimerInactive) u)) /\
  (autoCheck (priv u) = true -> lastCheck (priv u) = None ->
     resetAutoCheckTimer now u = Some (with_priv (set_updateTimer (TimerActive 0)) u)) /\
  (forall t z, autoCheck (priv u) = true -> lastCheck (priv u) = Some t ->
     truncate (millisecondsLeft now (priv u)) = Some z ->
     0 <= z /\
     (z <= INT_MAX ->
        resetAutoCheckTimer now u = Some (with_priv (set_updateTimer (TimerActive z)) u)) /\
     (INT_MAX < z ->
        double_to_int (millisecondsLeft now (priv u)) = None /\
        resetAutoCheckTimer now u = None /\
        forall d, in_int d = true -> d <> z)).
Proof.
  split; [|split].
  - apply resetAutoCheckTimer_disabled.
  - intros Ha Hl. apply resetAutoCheckTimer_enabled; [exact Ha|].
    now apply timeoutDuration_no_check.
  - intros t z Ha Hl Hz.
    pose proof (truncate_sign _ _ Hz (millisecondsLeft_not_negative now (priv u))) as Hpos.
    split; [exact Hpos|]. split.
    + intros Hmax. apply resetAutoCheckTimer_enabled; [exact Ha|].
      rewrite (timeoutDuration_check now (priv u) t Hl). unfold double_to_int.
      rewrite Hz. cbn. rewrite in_int_true; [reflexivity|]. unfold INT_MIN. lia.
    + intros Hmax.
      pose proof (timeoutDuration_overflow now (priv u) t z Hl Hz Hmax) as Hd.
      split; [|split].
      * now rewrite <- (timeoutDuration_check now (priv u) t Hl).
      * now apply resetAutoCheckTimer_undefined.
      * intros d Hint ->. unfold in_int in Hint.
        apply andb_prop in Hint as [_ H]. apply Z.leb_le in H. lia.
Qed.


End Scheduler.

(** Instances of [resetAutoCheckTimer_cases]: auto-check off with a
    running timer; auto-check on without a last check; auto-check on, one
    hour after the last check, with the default interval of one day; and
    an interval of thirty days checked just now.  The last state is the
    one the constructor reaches over a settings file with that interval:
    the seconds left are the 2592000 of the formula, their 2592000000
    milliseconds are above the largest [int], and the timer is not
    armed. *)
Lemma resetAutoCheckTimer_cases_witness :
  resetAutoCheckTimer newYear2024 (exampleUpdater false 86400 None (TimerActive 5000) ∅)
    = Some (exampleUpdater false 86400 None TimerInactive ∅) /\
  resetAutoCheckTimer newYear2024 (exampleUpdater true 86400 None TimerInactive ∅)
    = Some (exampleUpdater true 86400 None (TimerActive 0) ∅) /\
  resetAutoCheckTimer (newYear2024 + 3600000)
      (exampleUpdater true 86400 (Some newYear2024) TimerInactive ∅)
    = Some (exampleUpdater true 86400 (Some newYear2024) (TimerActive 82800000) ∅) /\
  (let u := exampleUpdater true 2592000 (Some newYear2024) TimerInactive thirtyDays in
   PrismExternalUpdater examplePlatform "/opt/prismlauncher" "/home/user/PrismLauncher"
     thirtyDays newYear2024 = resetAutoCheckTimer newYear2024 u /\
   secs_left newYear2024 (priv u) = int_to_double (Z.max 0 (2592000 - 0)) /\
   millisecondsLeft newYear2024 (priv u) = int_to_double (2592000 * 1000) /\
   INT_MAX < 2592000 * 1000 /\
   double_to_int (millisecondsLeft newYear2024 (priv u)) = None /\
   resetAutoCheckTimer newYear2024 u = None /\
   forall d, in_int d = true -> d <> 2592000 * 1000).
Proof.
  split; [|split; [|split]].
  - apply (proj1 (resetAutoCheckTimer_cases newYear2024
                    (exampleUpdater false 86400 None (TimerActive 5000) ∅))).
    reflexivity.
  - apply (proj1 (proj2 (resetAutoCheckTimer_cases newYear2024
                    (exampleUpdater true 86400 None TimerInactive ∅))));
      reflexivity.
  - apply (proj1 (proj2 (proj2 (proj2 (resetAutoCheckTimer_cases (newYear2024 + 3600000)
                    (exampleUpdater true 86400 (Some newYear2024) TimerInactive ∅)))
             newYear2024 82800000 eq_refl eq_refl eq_refl))).
    now vm_compute.
  - cbv zeta. split; [reflexivity|]. split; [reflexivity|]. split; [reflexivity|].
    split; [reflexivity|].
    apply (proj2 (proj2 (proj2 (proj2 (resetAutoCheckTimer_cases newYear2024
                    (exampleUpdater true 2592000 (Some newYear2024) TimerInactive thirtyDays)))
             newYear2024 (2592000 * 1000) eq_refl eq_refl eq_refl))).
    reflexivity.
Defined.




(* ===================================================================== *)
(** * Properties of the settings object *)
(* ===================================================================== *)

Section Settings.

Implicit Types (q : QSettings) (key g : string) (v : QVariant).

Lemma endGroup_beginGroup g q : endGroup (beginGroup g q) = q.
Proof.
  destruct q as [gs c s]. unfold endGroup, beginGroup. cbn.
  now rewrite removelast_last.
Qed.

Lemma value_setValue key v dflt q : value key dflt (setValue key v q) = v.
Proof. unfold value, setValue, actualKey. cbn. now rewrite lookup_insert_eq. Qed.

Lemma value_endGroup_begin key dflt g q :
  value key dflt (beginGroup g (endGroup (beginGroup g q))) = value key dflt (beginGroup g q).
Proof. now rewrite endGroup_beginGroup. Qed.

Lemma actualKey_idle key q : groups q = [] -> actualKey q key = key.
Proof. unfold actualKey. now intros ->. Qed.

Lemma actualKey_skip key q :
  groups q = [] -> actualKey (beginGroup "skip" q) key = "skip/" +:+ key.
Proof. unfold actualKey, beginGroup. cbn. now intros ->. Qed.

End Settings.

(* ===================================================================== *)
(** * Properties of the offer *)
(* ===================================================================== *)

Section Offer.

Variable P : Platform.
Implicit Types (u : Updater) (version_name version_tag release_notes : string).

Lemma markSkipped_settings version_tag u :
  settings (priv (markSkipped version_tag u)) =
  sync (endGroup (setValue version_tag (VBool true) (beginGroup "skip" (settings (priv u))))).
Proof. reflexivity. Qed.

Lemma markSkipped_skipEntry version_tag u :
  skipEntry version_tag (settings (priv (markSkipped version_tag u))) = true.
Proof.
  rewrite markSkipped_settings. unfold skipEntry.
  set (q := settings (priv u)). destruct q as [gs c s].
  unfold value, actualKey, beginGroup, endGroup, setValue, sync. cbn.
  rewrite removelast_last. now rewrite lookup_insert_eq.
Qed.

Lemma markSkipped_stored version_tag u :
  idle u ->
  stored (settings (priv (markSkipped version_tag u))) !! ("skip/" +:+ version_tag)
    = Some (VBool true).
Proof.
  unfold idle. intros Hidle. rewrite markSkipped_settings.
  unfold sync, endGroup, setValue. cbn [stored cache groups].
  rewrite (actualKey_skip _ _ Hidle). apply lookup_insert_eq.
Qed.

Lemma markSkipped_groups version_tag u :
  groups (settings (priv (markSkipped version_tag u))) = groups (settings (priv u)).
Proof.
  rewrite markSkipped_settings. cbn. apply removelast_last.
Qed.

Lemma offerUpdate_groups version_name version_tag release_notes result u :
  groups (settings (priv (offerUpdate P version_name version_tag release_notes result u)))
  = groups (settings (priv u)).
Proof.
  unfold offerUpdate.
  destruct (toBool _); [cbn; apply removelast_last|].
  destruct result; first [rewrite markSkipped_groups | idtac]; cbn; apply removelast_last.
Qed.

(** The offer is shown exactly when the tag is not on the skip list. *)
Lemma offerUpdate_not_skipped version_name version_tag release_notes result u :
  skipEntry version_tag (settings (priv u)) = false ->
  offerUpdate P version_name version_tag release_notes result u =
    let u := emit (UpdateAvailableDialog (printableVersionString P) version_name release_notes) u in
    match result with
    | Install => markSkipped version_tag (performUpdate P version_tag u)
    | Skip => markSkipped version_tag u
    | DontInstall | OtherCode => u
    end.
Proof.
  unfold offerUpdate, skipEntry. cbn [with_priv on_settings priv settings].
  intros ->. cbv zeta.
  destruct u as [[a d tm b c i l s] cn ev]. unfold with_priv, on_settings. cbn.
  rewrite endGroup_beginGroup. destruct result; reflexivity.
Qed.

(** C7.  If the skip entry of a version tag is true, [offerUpdate] for that
    tag returns the updater as it was: no dialog is shown (the events are
    the same) and neither the settings nor any other part of the state
    changes, whatever the operator would have answered. *)
Theorem offerUpdate_skipped version_name version_tag release_notes result u :
  skipEntry version_tag (settings (priv u)) = true ->
  offerUpdate P version_name version_tag release_notes result u = u.
Proof.
  unfold offerUpdate, skipEntry. cbn [with_priv on_settings priv settings].
  intros ->.
  destruct u as [[a d tm b c i l s] cn ev]. unfold with_priv, on_settings. cbn.
  now rewrite endGroup_beginGroup.
Qed.

(** C1 (what the code does).  When the offer is shown and the operator
    chooses Install, [offerUpdate] starts the updater, asks the application
    to exit, and then also marks the version as skipped: afterwards the
    skip entry of the tag is true, and it is written to the settings
    file. *)
Theorem offerUpdate_Install_marks_skipped version_name version_tag release_notes u :
  idle u ->
  skipEntry version_tag (settings (priv u)) = false ->
  let u' := offerUpdate P version_name version_tag release_notes Install u in
  skipEntry version_tag (settings (priv u')) = true /\
  stored (settings (priv u')) !! ("skip/" +:+ version_tag) = Some (VBool true) /\
  In ApplicationExit (events u').
Proof.
  intros Hidle Hskip u'.
  unfold u'. rewrite (offerUpdate_not_skipped _ _ _ _ _ Hskip). cbv zeta.
  split; [apply markSkipped_skipEntry|]. split.
  - apply markSkipped_stored. exact Hidle.
  - cbn. apply in_or_app. right. now left.
Qed.

(** The two other answers: Skip marks the version and starts nothing;
    DontInstall, like any other code, only leaves the dialog behind. *)
Lemma offerUpdate_Skip version_name version_tag release_notes u :
  idle u ->
  skipEntry version_tag (settings (priv u)) = false ->
  let u' := offerUpdate P version_name version_tag release_notes Skip u in
  skipEntry version_tag (settings (priv u')) = true /\
  stored (settings (priv u')) !! ("skip/" +:+ version_tag) = Some (VBool true) /\
  events u' = (events u ++
    [UpdateAvailableDialog (printableVersionString P) version_name release_notes])%list.
Proof.
  intros Hidle Hskip u'.
  unfold u'. rewrite (offerUpdate_not_skipped _ _ _ _ _ Hskip). cbv zeta.
  split; [apply markSkipped_skipEntry|]. split; [|reflexivity].
  apply markSkipped_stored. exact Hidle.
Qed.

Lemma offerUpdate_DontInstall version_name version_tag release_notes u :
  skipEntry version_tag (settings (priv u)) = false ->
  offerUpdate P version_name version_tag release_notes DontInstall u
  = emit (UpdateAvailableDialog (printableVersionString P) version_name release_notes) u.
Proof. intros Hskip. now rewrite (offerUpdate_not_skipped _ _ _ _ _ Hskip). Qed.

End Offer.

(** The run of [offerUpdate] on a fresh settings file, for version v1.2.3,
    with the operator choosing Install. *)
Lemma offerUpdate_Install_marks_skipped_witness :
  let u := exampleUpdater false 86400 None TimerInactive ∅ in
  let u' := offerUpdate examplePlatform "1.2.3" "v1.2.3" "Fixed bugs." Install u in
  skipEntry "v1.2.3" (settings (priv u')) = true /\
  stored (settings (priv u')) !! "skip/v1.2.3" = Some (VBool true) /\
  In ApplicationExit (events u').
Proof.
  apply (offerUpdate_Install_marks_skipped examplePlatform "1.2.3" "v1.2.3" "Fixed bugs."
           (exampleUpdater false 86400 None TimerInactive ∅)); reflexivity.
Defined.

Example offerUpdate_Install_events :
  events (offerUpdate examplePlatform "1.2.3" "v1.2.3" "Fixed bugs." Install
            (exampleUpdater false 86400 None TimerInactive ∅))
  = [UpdateAvailableDialog "8.0" "1.2.3" "Fixed bugs.";
     ProcessStartedDetached "/opt/prismlauncher/prismlauncher_updater"
       ["--dir"; "/home/user/PrismLauncher"; "--install-version"; "v1.2.3"];
     ApplicationExit].
Proof. reflexivity. Qed.

(** A tag on the skip list: the offer for v1.2.3 changes nothing. *)
Lemma offerUpdate_skipped_witness :
  let u := exampleUpdater true 86400 None (TimerActive 0) {["skip/v1.2.3" := VBool true]} in
  offerUpdate examplePlatform "1.2.3" "v1.2.3" "Fixed bugs." Install u = u.
Proof.
  apply (offerUpdate_skipped examplePlatform "1.2.3" "v1.2.3" "Fixed bugs." Install
           (exampleUpdater true 86400 None (TimerActive 0) {["skip/v1.2.3" := VBool true]})).
  reflexivity.
Defined.

(* ===================================================================== *)
(** * Properties of the check *)
(* ===================================================================== *)

Section Check.

Variable P : Platform.
Implicit Types (u : Updater) (proc : ProcessResult) (result : ResultCode) (now : Z).

(** The last three statements of [checkForUpdates]. *)
Lemma record_lastCheck now u :
  idle u ->
  let u1 := with_priv (set_lastCheck (Some now)) u in
  let u2 := with_priv (on_settings
              (setValue "last_check" (VString (toString_ISODate P (lastCheck (priv u1)))))) u1 in
  let u' := with_priv (on_settings sync) u2 in
  lastCheck (priv u') = Some now /\
  stored (settings (priv u')) !! "last_check"
    = Some (VString (toString_ISODate P (Some now))) /\
  idle u' /\ events u' = events u.
Proof.
  unfold idle. intros Hidle. cbn.
  rewrite (actualKey_idle _ _ Hidle), lookup_insert_eq. auto.
Qed.

(** C2.  Whatever the exit code of the updater process, its output and the
    operator's answer, one run of [checkForUpdates] ends with [lastCheck]
    set to the current time and with its ISO text written to the settings
    file under [last_check]; no group is left open.  When the exit code is
    0 the only dialog is the information box: the events of the run are the
    progress dialog, the process, and that box, so no update offer is
    shown. *)
Theorem checkForUpdates_records_lastCheck proc result now u :
  idle u ->
  let u' := checkForUpdates P proc result now u in
  lastCheck (priv u') = Some now /\
  stored (settings (priv u')) !! "last_check"
    = Some (VString (toString_ISODate P (Some now))) /\
  idle u' /\
  (exitCode proc = 0 ->
     exists program arguments,
       events u' = (events u ++
         [ProgressShown; ProcessStarted program arguments; ProgressHidden;
          InformationBox "No Update Available" "You are running the latest version."])%list /\
     forall current name notes, ~ In (UpdateAvailableDialog current name notes)
         [ProgressShown; ProcessStarted program arguments; ProgressHidden;
          InformationBox "No Update Available" "You are running the latest version."]).
Proof.
  intros Hidle. unfold checkForUpdates. cbv zeta.
  match goal with
  | |- context [with_priv (set_lastCheck (Some now)) ?m] => set (mid := m)
  end.
  assert (Hmid : idle mid).
  { unfold mid, idle.
    destruct (exitCode proc =? 0); [exact Hidle|].
    destruct (exitCode proc =? 1); [exact Hidle|].
    destruct (exitCode proc =? 100); [|exact Hidle].
    destruct (parseUpdateAvailable P (readAllStandardOutput proc)) as [[[vn vt] ts] rn].
    rewrite offerUpdate_groups. exact Hidle. }
  destruct (record_lastCheck now mid Hmid) as (Hlast & Hstored & Hidle' & Hev).
  cbv zeta in Hlast, Hstored, Hidle', Hev.
  repeat split; try assumption.
  intros Hzero. rewrite Hev. unfold mid. rewrite Hzero. cbn [Z.eqb].
  eexists _, _. split.
  - cbn. repeat rewrite <- app_assoc. reflexivity.
  - intros current name notes Hin. cbn in Hin.
    repeat (destruct Hin as [Hin|Hin]; [discriminate Hin|]). exact Hin.
Qed.

End Check.

(** Instances of [checkForUpdates_records_lastCheck]: a run that ends with
    exit code 0, and a run that ends with exit code 100 and the operator
    declining the offer. *)
Lemma checkForUpdates_records_lastCheck_witness :
  let u := exampleUpdater true 86400 None (TimerActive 0) ∅ in
  let none := {| exitCode := 0; readAllStandardOutput := ""; readAllStandardError := "" |} in
  let some := {| exitCode := 100;
                 readAllStandardOutput := "Version: 1.2.3
Tag: v1.2.3
Timestamp: 2024-01-01T00:00:00
Fixed bugs.
";
                 readAllStandardError := "" |} in
  (lastCheck (priv (checkForUpdates examplePlatform none Install newYear2024 u)) = Some newYear2024 /\
   stored (settings (priv (checkForUpdates examplePlatform none Install newYear2024 u))) !! "last_check"
     = Some (VString "2024-01-01T00:00:00")) /\
  (lastCheck (priv (checkForUpdates examplePlatform some DontInstall newYear2024 u)) = Some newYear2024 /\
   stored (settings (priv (checkForUpdates examplePlatform some DontInstall newYear2024 u))) !! "last_check"
     = Some (VString "2024-01-01T00:00:00")).
Proof.
  cbv zeta. split.
  - pose proof (checkForUpdates_records_lastCheck examplePlatform
        {| exitCode := 0; readAllStandardOutput := ""; readAllStandardError := "" |}
        Install newYear2024 (exampleUpdater true 86400 None (TimerActive 0) ∅) eq_refl)
      as (H1 & H2 & _).
    split; [exact H1 | exact H2].
  - pose proof (checkForUpdates_records_lastCheck examplePlatform
        {| exitCode := 100;
           readAllStandardOutput := "Version: 1.2.3
Tag: v1.2.3
Timestamp: 2024-01-01T00:00:00
Fixed bugs.
";
           readAllStandardError := "" |}
        DontInstall newYear2024 (exampleUpdater true 86400 None (TimerActive 0) ∅) eq_refl)
      as (H1 & H2 & _).
    split; [exact H1 | exact H2].
Defined.

(* ===================================================================== *)
(** * Properties of the parser of the updater's output *)
(* ===================================================================== *)

Section Parser.

Import StringUtils.

Implicit Types (s a b : string) (c : ascii).

Lemma append_nil_l s : EmptyString +:+ s = s.
Proof. reflexivity. Qed.

Lemma append_cons c s a : String c s +:+ a = String c (s +:+ a).
Proof. reflexivity. Qed.

Lemma append_assoc s a b : (s +:+ a) +:+ b = s +:+ (a +:+ b).
Proof.
  induction s as [|x s IH]; [reflexivity|].
  rewrite !append_cons. f_equal. exact IH.
Qed.

Lemma substring_all s : String.substring 0 (String.length s) s = s.
Proof. induction s as [|x s IH]; cbn; [reflexivity|]. now rewrite IH. Qed.

Lemma splitFirst_char_found a b c :
  occurs c a = false -> splitFirst_char (a +:+ String c b) c = (a, b).
Proof.
  induction a as [|x a IH].
  - intros _. rewrite append_nil_l. cbn. now rewrite Ascii.eqb_refl.
  - intros H. cbn in H. apply orb_false_elim in H as [Hx Ha].
    rewrite append_cons. cbn. rewrite Hx, (IH Ha). reflexivity.
Qed.


Lemma splitFirst_empty : splitFirst EmptyString ": " = (EmptyString, EmptyString).
Proof. reflexivity. Qed.

Lemma splitFirst_label a b :
  occurs ":" a = false -> splitFirst (a +:+ ": " +:+ b) ": " = (a, b).
Proof.
  induction a as [|x a IH].
  - intros _. rewrite append_nil_l, !append_cons, append_nil_l. cbn.
    assert (String.prefix "" b = true) as -> by (now destruct b).
    now rewrite Nat.sub_0_r, substring_all.
  - intros H. cbn in H. apply orb_false_elim in H as [Hx Ha].
    rewrite append_cons. cbn [splitFirst String.prefix].
    destruct (ascii_dec ":" x) as [E|_].
    { subst x. now rewrite Ascii.eqb_refl in Hx. }
    rewrite (IH Ha). reflexivity.
Qed.

Variable P : Platform.

(** The three header lines and the notes, read back. *)
Lemma parseUpdateAvailable_labelled l1 v1 l2 v2 l3 v3 notes :
  occurs ":" l1 = false -> occurs LF l1 = false -> occurs LF v1 = false ->
  occurs ":" l2 = false -> occurs LF l2 = false -> occurs LF v2 = false ->
  occurs ":" l3 = false -> occurs LF l3 = false -> occurs LF v3 = false ->
  parseUpdateAvailable P (labelled l1 v1 +:+ labelled l2 v2 +:+ labelled l3 v3 +:+ notes)
  = (trimmed v1, trimmed v2, fromString_ISODate P (trimmed v3), notes).
Proof.
  intros C1 N1 M1 C2 N2 M2 C3 N3 M3.
  assert (Hline : forall l v, occurs LF l = false -> occurs LF v = false ->
            occurs LF (l +:+ ": " +:+ v) = false).
  { intros l v Hl Hv. induction l as [|x l IH].
    - rewrite append_nil_l, !append_cons, append_nil_l. exact Hv.
    - cbn in Hl. apply orb_false_elim in Hl as [Hx Hl].
      rewrite append_cons. cbn. rewrite Hx. now apply IH. }
  assert (Hcut : forall l v rest, occurs LF l = false -> occurs LF v = false ->
            splitFirst_char (labelled l v +:+ rest) LF = (l +:+ ": " +:+ v, rest)).
  { intros l v rest Hl Hv. unfold labelled.
    replace ((l +:+ ": " +:+ v +:+ String LF EmptyString) +:+ rest)
      with ((l +:+ ": " +:+ v) +:+ String LF rest).
    - apply splitFirst_char_found. now apply Hline.
    - rewrite !append_assoc. reflexivity. }
  unfold parseUpdateAvailable.
  rewrite (Hcut l1 v1 _ N1 M1), (Hcut l2 v2 _ N2 M2), (Hcut l3 v3 _ N3 M3).
  rewrite (splitFirst_label l1 v1 C1), (splitFirst_label l2 v2 C2), (splitFirst_label l3 v3 C3).
  reflexivity.
Qed.

End Parser.

Section ParserClaims.

Import StringUtils.

Variable P : Platform.

(** C3 (as amended).  The standard output is read line by line: from three
    lines [Label: value] the first gives the version name, the second the
    version tag and the third the ISO release timestamp (each value with
    the white space around it removed), and the text after the third line
    is the release notes, taken as it stands.  For the output of the
    example the result is version name 1.2.3, version tag v1.2.3, the
    timestamp read from 2024-01-01T00:00:00, and the release notes
    [Fixed bugs.] followed by the line feed that ends them. *)
Theorem parseUpdateAvailable_three_lines :
  (forall l1 v1 l2 v2 l3 v3 notes,
     occurs ":" l1 = false -> occurs LF l1 = false -> occurs LF v1 = false ->
     occurs ":" l2 = false -> occurs LF l2 = false -> occurs LF v2 = false ->
     occurs ":" l3 = false -> occurs LF l3 = false -> occurs LF v3 = false ->
     parseUpdateAvailable P (labelled l1 v1 +:+ labelled l2 v2 +:+ labelled l3 v3 +:+ notes)
     = (trimmed v1, trimmed v2, fromString_ISODate P (trimmed v3), notes)) /\
  parseUpdateAvailable P exampleOutput
  = ("1.2.3", "v1.2.3", fromString_ISODate P "2024-01-01T00:00:00",
     "Fixed bugs." +:+ String LF EmptyString).
Proof.
  split; [apply parseUpdateAvailable_labelled | reflexivity].
Qed.






End ParserClaims.

(** The example of the specification, through the general statement. *)
Lemma parseUpdateAvailable_three_lines_witness :
  parseUpdateAvailable examplePlatform
    (labelled "Version" "1.2.3" +:+ labelled "Tag" "v1.2.3"
     +:+ labelled "Timestamp" "2024-01-01T00:00:00" +:+ "Fixed bugs." +:+ String LF EmptyString)
  = ("1.2.3", "v1.2.3", Some newYear2024, "Fixed bugs." +:+ String LF EmptyString).
Proof.
  apply (proj1 (parseUpdateAvailable_three_lines examplePlatform)
           "Version" "1.2.3" "Tag" "v1.2.3" "Timestamp" "2024-01-01T00:00:00"
           ("Fixed bugs." +:+ String LF EmptyString)); reflexivity.
Defined.

(** C3 (as stated) fails on its own example: the release notes that the
    code hands on are [Fixed bugs.] with the line feed, not [Fixed bugs.]. *)
Lemma parseUpdateAvailable_example_notes :
  exampleOutput = "Version: 1.2.3
Tag: v1.2.3
Timestamp: 2024-01-01T00:00:00
Fixed bugs.
" /\
  parseUpdateAvailable examplePlatform exampleOutput
  = ("1.2.3", "v1.2.3", Some newYear2024, "Fixed bugs.
") /\
  snd (parseUpdateAvailable examplePlatform exampleOutput) <> "Fixed bugs.".
Proof.
  split; [reflexivity|]. split; [reflexivity|].
  intros H. vm_compute in H. discriminate H.
Qed.


(* ===================================================================== *)
(** * Properties of the preferences *)
(* ===================================================================== *)

Section Preferences.

Variable P : Platform.
Implicit Types (u v : Updater) (now : Z).

Lemma timeoutDuration_timer now tm p :
  timeoutDuration now (set_updateTimer tm p) = timeoutDuration now p.
Proof. reflexivity. Qed.

Local Arguments timeoutDuration : simpl never.

Lemma resetAutoCheckTimer_rearmed now u u' :
  resetAutoCheckTimer now u = Some u' -> rearmed now u'.
Proof.
  unfold rearmed, resetAutoCheckTimer.
  destruct (autoCheck (priv u)) eqn:Ha.
  - destruct (timeoutDuration now (priv u)) as [d|] eqn:Hd; cbn; [|discriminate].
    intros [= <-]. cbn. rewrite Ha, timeoutDuration_timer, Hd. reflexivity.
  - destruct (isActive (updateTimer (priv u))) eqn:Hact; intros [= <-]; cbn.
    + rewrite Ha. reflexivity.
    + rewrite Ha, Hact. reflexivity.
Qed.

(** The last statement of the two setters touches the timer alone, however
    it comes out. *)
Lemma rearm_reached now u :
  exists tm, reached (rearm now u) = with_priv (set_updateTimer tm) u.
Proof.
  unfold rearm. destruct (resetAutoCheckTimer now u) as [u'|] eqn:H.
  - apply resetAutoCheckTimer_frame in H as [tm ->]. eauto.
  - exists (updateTimer (priv u)). now destruct u as [[a d tm b c i l s] cn ev].
Qed.

Lemma rearm_Returned now u u' :
  rearm now u = Returned u' -> resetAutoCheckTimer now u = Some u'.
Proof. unfold rearm. destruct (resetAutoCheckTimer now u); now intros [= <-]. Qed.

Lemma rearm_Undefined now u u' :
  rearm now u = Undefined u' -> u' = u /\ resetAutoCheckTimer now u = None.
Proof. unfold rearm. destruct (resetAutoCheckTimer now u); [discriminate|]. now intros [= <-]. Qed.

(** The constructor ends with [resetAutoCheckTimer] on what it has loaded. *)
Lemma PrismExternalUpdater_loaded appDir dataDir content now :
  PrismExternalUpdater P appDir dataDir content now
  = resetAutoCheckTimer now (loaded P appDir dataDir content).
Proof.
  unfold PrismExternalUpdater, loaded, value. cbn [open cache].
  rewrite !(actualKey_idle _ (open content) eq_refl).
  destruct (toInt (default (VInt 86400) (content !! "update_interval"))) as [interval ok].
  reflexivity.
Qed.

Lemma PrismExternalUpdater_fields appDir dataDir content now v :
  PrismExternalUpdater P appDir dataDir content now = Some v ->
  exists tm, v = with_priv (set_updateTimer tm) (loaded P appDir dataDir content).
Proof.
  rewrite PrismExternalUpdater_loaded. apply resetAutoCheckTimer_frame.
Qed.

(** What the constructor loads from the content of the settings file. *)
Lemma PrismExternalUpdater_loads appDir dataDir content now v :
  PrismExternalUpdater P appDir dataDir content now = Some v ->
  allowBeta (priv v) = toBool (default (VBool false) (content !! "allow_beta")) /\
  autoCheck (priv v) = toBool (default (VBool false) (content !! "auto_check")) /\
  updateInterval (priv v)
    = int_to_double
        (if negb (snd (toInt (default (VInt 86400) (content !! "update_interval"))))
         then 86400 else fst (toInt (default (VInt 86400) (content !! "update_interval")))) /\
  settings (priv v) = open content /\
  rearmed now v.
Proof.
  intros H. pose proof H as Hre.
  rewrite PrismExternalUpdater_loaded in Hre. apply resetAutoCheckTimer_rearmed in Hre.
  apply PrismExternalUpdater_fields in H as [tm ->]. cbn. auto.
Qed.

(** No group is open after the constructor, and the setters keep it so. *)
Lemma PrismExternalUpdater_idle appDir dataDir content now v :
  PrismExternalUpdater P appDir dataDir content now = Some v -> idle v.
Proof.
  intros H. apply PrismExternalUpdater_loads in H as (_ & _ & _ & Hs & _).
  unfold idle. now rewrite Hs.
Qed.

Lemma setAutomaticallyChecksForUpdates_idle check now u :
  idle u -> idle (reached (setAutomaticallyChecksForUpdates check now u)).
Proof.
  unfold idle, setAutomaticallyChecksForUpdates. intros Hidle.
  match goal with |- context [rearm now ?x] => destruct (rearm_reached now x) as [tm ->] end.
  exact Hidle.
Qed.

Lemma setUpdateCheckInterval_idle seconds now u :
  idle u -> idle (reached (setUpdateCheckInterval seconds now u)).
Proof.
  unfold idle, setUpdateCheckInterval. intros Hidle.
  match goal with |- context [rearm now ?x] => destruct (rearm_reached now x) as [tm ->] end.
  exact Hidle.
Qed.

Lemma setBetaAllowed_idle allowed u : idle u -> idle (setBetaAllowed allowed u).
Proof. unfold idle. intros Hidle. exact Hidle. Qed.

(** What a new updater reads from a settings file. *)
Lemma readsBack_field {A : Type} (get : Private -> A) (x : A) u :
  (forall tm p, get (set_updateTimer tm p) = get p) ->
  (forall appDir dataDir,
     get (priv (loaded P appDir dataDir (stored (settings (priv u))))) = x) ->
  readsBack P (fun v => get (priv v)) x u.
Proof.
  intros Hframe Hload appDir dataDir. split; [apply Hload|].
  intros now v Hv. apply PrismExternalUpdater_fields in Hv as [tm ->].
  cbn [priv with_priv]. rewrite Hframe. apply Hload.
Qed.

(** C8.  What the three setters do on an updater with no settings group
    open.  [setAutomaticallyChecksForUpdates] and [setUpdateCheckInterval]
    set the preference and write it to the settings file under
    [auto_check] and [update_interval], whether or not the scheduler then
    has a defined result; a new updater over that file reads auto-check
    back as it was set, and the interval rounded to the nearest whole
    number and cut to an [int]; and when the setter returns, the timer is
    as [resetAutoCheckTimer] sets it.
    [setBetaAllowed] sets the preference and writes it to the file under
    [auto_beta]: the key [allow_beta] is as it was, a new updater over
    that file reads the old value of [allow_beta] and not the value just
    set, and the timer is not touched. *)
Theorem setters_persist_and_rearm now u :
  idle u ->
  (forall check,
     let r := setAutomaticallyChecksForUpdates check now u in
     getAutomaticallyChecksForUpdates (reached r) = check /\
     stored (settings (priv (reached r)))
       = <["auto_check" := VBool check]> (cache (settings (priv u))) /\
     readsBack P getAutomaticallyChecksForUpdates check (reached r) /\
     (forall u', r = Returned u' -> rearmed now u') /\
     (forall u', r = Undefined u' -> resetAutoCheckTimer now u' = None)) /\
  (forall seconds,
     let r := setUpdateCheckInterval seconds now u in
     getUpdateCheckInterval (reached r) = seconds /\
     stored (settings (priv (reached r)))
       = <["update_interval" := VDouble seconds]> (cache (settings (priv u))) /\
     (forall z, qRound64 seconds = Some z ->
        readsBack P getUpdateCheckInterval (int_to_double (wrap_int z)) (reached r)) /\
     (forall u', r = Returned u' -> rearmed now u') /\
     (forall u', r = Undefined u' -> resetAutoCheckTimer now u' = None)) /\
  (forall allowed,
     let u' := setBetaAllowed allowed u in
     getBetaAllowed u' = allowed /\
     stored (settings (priv u'))
       = <["auto_beta" := VBool allowed]> (cache (settings (priv u))) /\
     stored (settings (priv u')) !! "allow_beta" = cache (settings (priv u)) !! "allow_beta" /\
     readsBack P getBetaAllowed
       (toBool (default (VBool false) (cache (settings (priv u)) !! "allow_beta"))) u' /\
     updateTimer (priv u') = updateTimer (priv u) /\
     events u' = events u).
Proof.
  unfold idle. intros Hidle. split; [|split].
  - intros check. cbv zeta. unfold setAutomaticallyChecksForUpdates.
    match goal with |- context [rearm now ?x] => set (u1 := x) end.
    assert (Hst : stored (settings (priv u1))
                  = <["auto_check" := VBool check]> (cache (settings (priv u)))).
    { unfold u1. cbn. now rewrite (actualKey_idle _ _ Hidle). }
    destruct (rearm_reached now u1) as [tm Hr].
    split; [now rewrite Hr|]. split; [now rewrite Hr|]. split; [|split].
    + apply (readsBack_field autoCheck); [reflexivity|].
      intros a d. rewrite Hr. cbn [priv with_priv set_updateTimer settings].
      rewrite Hst. cbn [loaded priv autoCheck]. now rewrite lookup_insert_eq.
    + intros u' H. apply rearm_Returned in H.
      now apply (resetAutoCheckTimer_rearmed now u1).
    + intros u' H. apply rearm_Undefined in H as [-> H]. exact H.
  - intros seconds. cbv zeta. unfold setUpdateCheckInterval.
    match goal with |- context [rearm now ?x] => set (u1 := x) end.
    assert (Hst : stored (settings (priv u1))
                  = <["update_interval" := VDouble seconds]> (cache (settings (priv u)))).
    { unfold u1. cbn. now rewrite (actualKey_idle _ _ Hidle). }
    destruct (rearm_reached now u1) as [tm Hr].
    split; [now rewrite Hr|]. split; [now rewrite Hr|]. split; [|split].
    + intros z Hround. apply (readsBack_field updateInterval); [reflexivity|].
      intros a d. rewrite Hr. cbn [priv with_priv set_updateTimer settings].
      rewrite Hst. cbn [loaded priv updateInterval]. rewrite lookup_insert_eq.
      cbn [default from_option id toInt fst snd negb]. now rewrite Hround.
    + intros u' H. apply rearm_Returned in H.
      now apply (resetAutoCheckTimer_rearmed now u1).
    + intros u' H. apply rearm_Undefined in H as [-> H]. exact H.
  - intros allowed. cbv zeta. set (u' := setBetaAllowed allowed u).
    assert (Hst : stored (settings (priv u'))
                  = <["auto_beta" := VBool allowed]> (cache (settings (priv u)))).
    { unfold u'. cbn. now rewrite (actualKey_idle _ _ Hidle). }
    split; [reflexivity|]. split; [exact Hst|]. split; [|split; [|split; reflexivity]].
    + rewrite Hst. now rewrite lookup_insert_ne.
    + apply (readsBack_field allowBeta); [reflexivity|].
      intros a d. rewrite Hst. cbn [loaded priv allowBeta]. now rewrite lookup_insert_ne.
Qed.

End Preferences.

(** Over an empty settings file the constructor gives the defaults. *)
Example PrismExternalUpdater_fresh :
  PrismExternalUpdater examplePlatform "/opt/prismlauncher" "/home/user/PrismLauncher" ∅ newYear2024
  = Some (exampleUpdater false 86400 None TimerInactive ∅).
Proof. reflexivity. Qed.

(** Instances of [setters_persist_and_rearm] on the updater constructed at
    the time of a check, one hour later.  Auto-check is switched off and
    the interval is set to one hour: both are in the file and are read
    back.  Beta versions are allowed: the file has [auto_beta] and no
    [allow_beta], a new updater reads the preference as false, and the
    timer stands as the constructor armed it, although
    [resetAutoCheckTimer] would now arm it with the 23 hours left. *)
Lemma setters_persist_and_rearm_witness :
  let u := exampleUpdater true 86400 (Some newYear2024) (TimerActive 86400000)
             checkedAtNewYear in
  let now := newYear2024 + 3600000 in
  PrismExternalUpdater examplePlatform "/opt/prismlauncher" "/home/user/PrismLauncher"
    checkedAtNewYear newYear2024 = Some u /\
  (let r := setAutomaticallyChecksForUpdates false now u in
   stored (settings (priv (reached r))) !! "auto_check" = Some (VBool false) /\
   readsBack examplePlatform getAutomaticallyChecksForUpdates false (reached r) /\
   exists u', r = Returned u' /\ rearmed now u') /\
  (let r := setUpdateCheckInterval (int_to_double 3600) now u in
   stored (settings (priv (reached r))) !! "update_interval"
     = Some (VDouble (int_to_double 3600)) /\
   readsBack examplePlatform getUpdateCheckInterval (int_to_double 3600) (reached r) /\
   exists u', r = Returned u' /\ rearmed now u') /\
  (let u' := setBetaAllowed true u in
   getBetaAllowed u' = true /\
   stored (settings (priv u')) !! "auto_beta" = Some (VBool true) /\
   stored (settings (priv u')) !! "allow_beta" = None /\
   readsBack examplePlatform getBetaAllowed false u' /\
   updateTimer (priv u') = TimerActive 86400000 /\
   resetAutoCheckTimer now u' = Some (with_priv (set_updateTimer (TimerActive 82800000)) u')).
Proof.
  cbv zeta. split; [reflexivity|].
  destruct (setters_persist_and_rearm examplePlatform (newYear2024 + 3600000)
              (exampleUpdater true 86400 (Some newYear2024) (TimerActive 86400000)
                 checkedAtNewYear) eq_refl)
    as (Hauto & Hinterval & Hbeta).
  split; [|split].
  - destruct (Hauto false) as (_ & H1 & H2 & H3 & _).
    split; [now rewrite H1|]. split; [exact H2|].
    eexists. split; [reflexivity|]. apply H3. reflexivity.
  - destruct (Hinterval (int_to_double 3600)) as (_ & H1 & H2 & H3 & _).
    split; [now rewrite H1|]. split; [exact (H2 3600 eq_refl)|].
    eexists. split; [reflexivity|]. apply H3. reflexivity.
  - destruct (Hbeta true) as (H0 & H1 & H2 & H3 & H4 & _).
    split; [exact H0|]. split; [now rewrite H1|]. split; [now rewrite H2|].
    split; [exact H3|]. split; [exact H4 | reflexivity].
Defined.

(* ===================================================================== *)
(** * Properties of QString::arg *)
(* ===================================================================== *)

Section Arg.

Import QStringArg.

Implicit Types (s a pre rest : string) (ts : list Token).

Example arg_lowest_marker : arg "X" "%1 and %2 and %1" = "X and %2 and X".
Proof. reflexivity. Qed.

Example arg_no_marker : arg "X" "100% done" = "100% done".
Proof. reflexivity. Qed.

Example arg_two_digits : arg "X" "%12 %3" = "%12 X".
Proof. reflexivity. Qed.

Lemma occurs_append c a b : occurs c (a +:+ b) = occurs c a || occurs c b.
Proof.
  induction a as [|x a IH]; [reflexivity|].
  rewrite append_cons. cbn. rewrite IH. now rewrite orb_assoc.
Qed.

Lemma scan_free_prefix pre rest :
  occurs "%" pre = false ->
  scan Normal (pre +:+ rest) = (map TChar (list_ascii_of_string pre) ++ scan Normal rest)%list.
Proof.
  induction pre as [|x pre IH]; [reflexivity|].
  intros H. cbn in H. apply orb_false_elim in H as [Hx Hpre].
  rewrite append_cons. cbn. unfold isPercent. rewrite Hx.
  now rewrite (IH Hpre).
Qed.

Lemma min_escape_chars pre ts :
  min_escape (map TChar (list_ascii_of_string pre) ++ ts) = min_escape ts.
Proof. induction pre as [|x pre IH]; [reflexivity|]. exact IH. Qed.

Lemma render_chars m a pre ts :
  render m a (map TChar (list_ascii_of_string pre) ++ ts) = pre +:+ render m a ts.
Proof.
  induction pre as [|x pre IH]; [reflexivity|].
  cbn. rewrite IH. reflexivity.
Qed.

(** A text before the first percent sign is passed over. *)
Lemma arg_free_prefix a pre rest :
  occurs "%" pre = false -> arg a (pre +:+ rest) = pre +:+ arg a rest.
Proof.
  intros H. unfold arg. rewrite (scan_free_prefix _ _ H), min_escape_chars.
  destruct (min_escape (scan Normal rest)); [apply render_chars | reflexivity].
Qed.

End Arg.

(* ===================================================================== *)
(** * Properties of the Flame URL builder *)
(* ===================================================================== *)

Section Flame.

Import ModPlatform FlameAPI QStringArg.

Variable bits : ModLoaderBits.
Variable overrideDeps : list OverrideDep.

Implicit Types (loaders : Z) (args : DependencySearchArgs).

(** C10.  [getMappedModLoader] decides by a fixed priority: 1 when the
    Forge bit is set; else 4 when the Fabric bit is set; else 5 when the
    Quilt bit is set; else 6 when the NeoForge bit is set; and 0 when none
    of the four is set.  It is the first match in the list Forge, Fabric,
    Quilt, NeoForge. *)
Theorem getMappedModLoader_priority loaders :
  (testFlag loaders (Forge bits) = true -> getMappedModLoader bits loaders = 1) /\
  (testFlag loaders (Forge bits) = false -> testFlag loaders (Fabric bits) = true ->
     getMappedModLoader bits loaders = 4) /\
  (testFlag loaders (Forge bits) = false -> testFlag loaders (Fabric bits) = false ->
   testFlag loaders (Quilt bits) = true ->
     getMappedModLoader bits loaders = 5) /\
  (testFlag loaders (Forge bits) = false -> testFlag loaders (Fabric bits) = false ->
   testFlag loaders (Quilt bits) = false -> testFlag loaders (NeoForge bits) = true ->
     getMappedModLoader bits loaders = 6) /\
  (testFlag loaders (Forge bits) = false -> testFlag loaders (Fabric bits) = false ->
   testFlag loaders (Quilt bits) = false -> testFlag loaders (NeoForge bits) = false ->
     getMappedModLoader bits loaders = 0) /\
  getMappedModLoader bits loaders = firstLoaderId bits loaders.
Proof.
  unfold getMappedModLoader, firstLoaderId, loaderPriority. cbn [find fst snd].
  repeat split; repeat (intros ->); try reflexivity.
  destruct (testFlag loaders (Forge bits)); [reflexivity|].
  destruct (testFlag loaders (Fabric bits)); [reflexivity|].
  destruct (testFlag loaders (Quilt bits)); [reflexivity|].
  destruct (testFlag loaders (NeoForge bits)); reflexivity.
Qed.

Lemma fill_template a1 a2 a3 :
  occurs "%" a1 = false -> occurs "%" a2 = false ->
  arg a3 (arg a2 (arg a1
    "https://api.curseforge.com/v1/mods/%1/files?pageSize=10000&gameVersion=%2&modLoaderType=%3"))
  = "https://api.curseforge.com/v1/mods/" +:+ a1
    +:+ "/files?pageSize=10000&gameVersion=" +:+ a2
    +:+ "&modLoaderType=" +:+ a3.
Proof.
  intros H1 H2.
  change "https://api.curseforge.com/v1/mods/%1/files?pageSize=10000&gameVersion=%2&modLoaderType=%3"
    with ("https://api.curseforge.com/v1/mods/"
          +:+ "%1/files?pageSize=10000&gameVersion=%2&modLoaderType=%3").
  rewrite arg_free_prefix by reflexivity.
  change (arg a1 "%1/files?pageSize=10000&gameVersion=%2&modLoaderType=%3")
    with (a1 +:+ "/files?pageSize=10000&gameVersion=" +:+ "%2&modLoaderType=%3").
  rewrite <- !append_assoc.
  rewrite arg_free_prefix.
  2:{ rewrite !occurs_append, H1. reflexivity. }
  change (arg a2 "%2&modLoaderType=%3") with (a2 +:+ "&modLoaderType=" +:+ "%3").
  rewrite <- !append_assoc.
  rewrite arg_free_prefix.
  2:{ rewrite !occurs_append, H1, H2. reflexivity. }
  change (arg a3 "%3") with (a3 +:+ EmptyString).
  rewrite !append_assoc.
  assert (Hnil : a3 +:+ EmptyString = a3).
  { clear. induction a3 as [|x a IH]; [reflexivity|]. rewrite append_cons. now rewrite IH. }
  rewrite Hnil. reflexivity.
Qed.

(** The choice of the loader id, for every request: with Quilt requested
    and the identifier overridden the template is filled with 5, and in
    every other case with the value of [getMappedModLoader]. *)
Lemma getDependencyURL_filled args :
  (testFlag (loader args) (Quilt bits) = true -> overridden overrideDeps (addonId args) ->
     getDependencyURL bits overrideDeps args
     = Some (filledTemplate (addonId args) (mcVersion args) 5)) /\
  (~ (testFlag (loader args) (Quilt bits) = true /\ overridden overrideDeps (addonId args)) ->
     getDependencyURL bits overrideDeps args
     = Some (filledTemplate (addonId args) (mcVersion args)
               (getMappedModLoader bits (loader args)))).
Proof.
  assert (Hfind : forall id,
            overridden overrideDeps id <-> find (overrides id) overrideDeps <> None).
  { intros id. unfold overridden. split.
    - intros (dep & Hin & Hp & Hq) Hnone.
      pose proof (find_none _ _ Hnone dep Hin) as Hf.
      unfold overrides in Hf. rewrite Hp, Hq, String.eqb_refl in Hf. discriminate Hf.
    - destruct (find (overrides id) overrideDeps) as [dep|] eqn:Hf; [|congruence].
      intros _. apply find_some in Hf as [Hin Hov].
      unfold overrides in Hov. apply andb_prop in Hov as [Hp Hq].
      exists dep. split; [exact Hin|]. split.
      + destruct (provider dep); [discriminate Hp | reflexivity].
      + apply String.eqb_eq in Hq. now symmetry. }
  unfold getDependencyURL, filledTemplate. split.
  - intros Hq Hex. rewrite Hq. apply Hfind in Hex.
    destruct (find (overrides (addonId args)) overrideDeps); [reflexivity|congruence].
  - intros Hno.
    destruct (testFlag (loader args) (Quilt bits)) eqn:Hq; [|reflexivity].
    destruct (find (overrides (addonId args)) overrideDeps) eqn:Hf; [|reflexivity].
    exfalso. apply Hno. split; [reflexivity|]. apply Hfind. congruence.
Qed.

(** C9 (as amended).  For every dependency request whose identifier and
    game version have no percent sign: when the loader includes Quilt and
    the override table has a Flame entry whose Quilt project is the
    identifier of the dependency, the URL reads
    [.../mods/<id>/files?pageSize=10000&gameVersion=<version>&modLoaderType=5];
    in every other case it reads the same with the value of
    [getMappedModLoader] as [modLoaderType]. *)
Theorem getDependencyURL_modLoaderType args :
  occurs "%" (addonId args) = false -> occurs "%" (mcVersion args) = false ->
  (testFlag (loader args) (Quilt bits) = true -> overridden overrideDeps (addonId args) ->
     getDependencyURL bits overrideDeps args
     = Some (dependencyURL (addonId args) (mcVersion args) 5)) /\
  (~ (testFlag (loader args) (Quilt bits) = true /\ overridden overrideDeps (addonId args)) ->
     getDependencyURL bits overrideDeps args
     = Some (dependencyURL (addonId args) (mcVersion args)
               (getMappedModLoader bits (loader args)))).
Proof.
  intros H1 H2. destruct (getDependencyURL_filled args) as [Hover Hmap].
  unfold filledTemplate in Hover, Hmap. unfold dependencyURL.
  split.
  - intros Hq Hex. rewrite (Hover Hq Hex). f_equal. now apply fill_template.
  - intros Hno. rewrite (Hmap Hno). f_equal. now apply fill_template.
Qed.

End Flame.

(** Instances of [getMappedModLoader_priority] on the example bits: Forge
    with Quilt, Fabric with Quilt, Quilt with NeoForge, NeoForge alone, and
    a loader outside the four. *)
Lemma getMappedModLoader_priority_witness :
  FlameAPI.getMappedModLoader FlameAPI.exampleBits 34 = 1 /\
  FlameAPI.getMappedModLoader FlameAPI.exampleBits 48 = 4 /\
  FlameAPI.getMappedModLoader FlameAPI.exampleBits 33 = 5 /\
  FlameAPI.getMappedModLoader FlameAPI.exampleBits 1 = 6 /\
  FlameAPI.getMappedModLoader FlameAPI.exampleBits 4 = 0.
Proof.
  split; [|split; [|split; [|split]]].
  - apply (proj1 (getMappedModLoader_priority FlameAPI.exampleBits 34)). reflexivity.
  - apply (proj1 (proj2 (getMappedModLoader_priority FlameAPI.exampleBits 48))); reflexivity.
  - apply (proj1 (proj2 (proj2 (getMappedModLoader_priority FlameAPI.exampleBits 33))));
      reflexivity.
  - apply (proj1 (proj2 (proj2 (proj2 (getMappedModLoader_priority FlameAPI.exampleBits 1)))));
      reflexivity.
  - apply (proj1 (proj2 (proj2 (proj2 (proj2 (getMappedModLoader_priority FlameAPI.exampleBits 4))))));
      reflexivity.
Defined.

(** Instances of [getDependencyURL_modLoaderType] on the example table: a
    Forge and Quilt request for the overridden project 634179 gets loader
    5 although the mapping alone gives 1; the same request for project
    306612 gets 1. *)
Lemma getDependencyURL_modLoaderType_witness :
  FlameAPI.getMappedModLoader FlameAPI.exampleBits 34 = 1 /\
  FlameAPI.getDependencyURL FlameAPI.exampleBits FlameAPI.exampleOverrides
    {| FlameAPI.addonId := "634179"; FlameAPI.mcVersion := "1.20.1"; FlameAPI.loader := 34 |}
  = Some "https://api.curseforge.com/v1/mods/634179/files?pageSize=10000&gameVersion=1.20.1&modLoaderType=5" /\
  FlameAPI.getDependencyURL FlameAPI.exampleBits FlameAPI.exampleOverrides
    {| FlameAPI.addonId := "306612"; FlameAPI.mcVersion := "1.20.1"; FlameAPI.loader := 34 |}
  = Some "https://api.curseforge.com/v1/mods/306612/files?pageSize=10000&gameVersion=1.20.1&modLoaderType=1".
Proof.
  split; [reflexivity|]. split.
  - apply (proj1 (getDependencyURL_modLoaderType FlameAPI.exampleBits FlameAPI.exampleOverrides
             {| FlameAPI.addonId := "634179"; FlameAPI.mcVersion := "1.20.1"; FlameAPI.loader := 34 |}
             eq_refl eq_refl)).
    + reflexivity.
    + eexists. split; [right; left; reflexivity|]. split; reflexivity.
  - apply (proj2 (getDependencyURL_modLoaderType FlameAPI.exampleBits FlameAPI.exampleOverrides
             {| FlameAPI.addonId := "306612"; FlameAPI.mcVersion := "1.20.1"; FlameAPI.loader := 34 |}
             eq_refl eq_refl)).
    intros [_ (dep & Hin & Hp & Hq)].
    destruct Hin as [<-|[<-|[]]]; [discriminate Hp | discriminate Hq].
Defined.

(** C9 (as stated) fails on an identifier with a place marker: for the
    identifier [%1], the game version 1.20.1 and a Forge and Quilt
    request, the mapping gives 1, but the game version goes where the
    identifier stands, the loader id goes where the game version belongs,
    and [modLoaderType] is left as the marker [%3]. *)
Lemma getDependencyURL_place_marker :
  let args := {| FlameAPI.addonId := "%1"; FlameAPI.mcVersion := "1.20.1";
                 FlameAPI.loader := 34 |} in
  ~ (FlameAPI.testFlag 34 (ModPlatform.Quilt FlameAPI.exampleBits) = true /\
     FlameAPI.overridden FlameAPI.exampleOverrides "%1") /\
  FlameAPI.getMappedModLoader FlameAPI.exampleBits 34 = 1 /\
  FlameAPI.getDependencyURL FlameAPI.exampleBits FlameAPI.exampleOverrides args
  = Some "https://api.curseforge.com/v1/mods/1.20.1/files?pageSize=10000&gameVersion=1&modLoaderType=%3" /\
  FlameAPI.getDependencyURL FlameAPI.exampleBits FlameAPI.exampleOverrides args
  <> Some (FlameAPI.dependencyURL "%1" "1.20.1" 1).
Proof.
  cbv zeta. split; [|split; [reflexivity|split; [reflexivity|]]].
  - intros [_ (dep & Hin & Hp & Hq)].
    destruct Hin as [<-|[<-|[]]]; [discriminate Hp | discriminate Hq].
  - intros H. vm_compute in H. discriminate H.
Qed.

(* ===================================================================== *)
(** * Further properties of the Flame URL builder *)
(* ===================================================================== *)

Section FlameFurther.

Import ModPlatform FlameAPI QStringArg.

Variable bits : ModLoaderBits.

Implicit Types (loaders types : Z).

Lemma append_nil_r s : s +:+ EmptyString = s.
Proof.
  induction s as [|x s IH]; [reflexivity|]. rewrite append_cons. now rewrite IH.
Qed.

(** A template that ends with its only marker. *)
Lemma arg_at_end a pre :
  occurs "%" pre = false -> arg a (pre +:+ "%1") = pre +:+ a.
Proof.
  intros H. rewrite (arg_free_prefix _ _ _ H).
  change (arg a "%1") with (a +:+ EmptyString). now rewrite append_nil_r.
Qed.

Lemma testFlag_lor loaders a b :
  testFlag loaders (Z.lor a b) = testFlag loaders a || testFlag loaders b.
Proof.
  unfold testFlag. rewrite Z.land_lor_distr_r.
  destruct (Z.eqb_spec (Z.land loaders a) 0) as [Ha|Ha];
    destruct (Z.eqb_spec (Z.land loaders b) 0) as [Hb|Hb]; cbn.
  - rewrite Ha, Hb. reflexivity.
  - destruct (Z.eqb_spec (Z.lor (Z.land loaders a) (Z.land loaders b)) 0) as [E|E];
      [|reflexivity].
    apply Z.lor_eq_0_iff in E as [_ E]. contradiction.
  - destruct (Z.eqb_spec (Z.lor (Z.land loaders a) (Z.land loaders b)) 0) as [E|E];
      [|reflexivity].
    apply Z.lor_eq_0_iff in E as [E _]. contradiction.
  - destruct (Z.eqb_spec (Z.lor (Z.land loaders a) (Z.land loaders b)) 0) as [E|E];
      [|reflexivity].
    apply Z.lor_eq_0_iff in E as [E _]. contradiction.
Qed.

(** X1.  The three tests of a loader set agree: [validateModLoaders] accepts it
    exactly when [getMappedModLoader] gives an id other than 0, and exactly
    when [getModLoaderStrings] is not empty. *)
Theorem loader_tests_agree loaders :
  (validateModLoaders bits loaders = true <-> getMappedModLoader bits loaders <> 0) /\
  (validateModLoaders bits loaders = true <-> getModLoaderStrings bits loaders <> []).
Proof.
  unfold validateModLoaders, getMappedModLoader, getModLoaderStrings.
  rewrite !testFlag_lor. cbn [fold_left].
  destruct (testFlag loaders (NeoForge bits)), (testFlag loaders (Forge bits)),
    (testFlag loaders (Fabric bits)), (testFlag loaders (Quilt bits));
    cbn; split; split; intros H; try reflexivity; try discriminate H;
    try (exfalso; apply H; reflexivity); try (intros E; discriminate E).
Qed.

Lemma testFlag_self a : a <> 0 -> testFlag a a = true.
Proof.
  intros H. unfold testFlag. rewrite Z.land_diag.
  now destruct (Z.eqb_spec a 0).
Qed.

Lemma testFlag_disjoint a b : Z.land a b = 0 -> testFlag a b = false.
Proof. intros H. unfold testFlag. now rewrite H. Qed.

Lemma testFlag_disjoint_sym a b : Z.land a b = 0 -> testFlag b a = false.
Proof. intros H. unfold testFlag. now rewrite Z.land_comm, H. Qed.

(** X2.  When the four loaders have separate bits, [getModLoaderStrings] lists
    the ids of the loaders that are set in the order NeoForge, Forge,
    Fabric, Quilt, that is 6, 1, 4, 5, and [getModLoaderFilters] puts them
    between brackets, separated by commas. *)
Theorem getModLoaderStrings_order types :
  separateBits bits ->
  getModLoaderStrings bits types
  = ((if testFlag types (NeoForge bits) then ["6"] else []) ++
     (if testFlag types (Forge bits) then ["1"] else []) ++
     (if testFlag types (Fabric bits) then ["4"] else []) ++
     (if testFlag types (Quilt bits) then ["5"] else []))%list /\
  (testFlag types (NeoForge bits) = true -> testFlag types (Forge bits) = true ->
   testFlag types (Fabric bits) = true -> testFlag types (Quilt bits) = true ->
     getModLoaderFilters bits types = "[6,1,4,5]") /\
  (validateModLoaders bits types = false -> getModLoaderFilters bits types = "[]").
Proof.
  intros (N0 & F0 & A0 & Q0 & NF & NA & NQ & FA & FQ & AQ).
  assert (HN : getMappedModLoader bits (NeoForge bits) = 6).
  { unfold getMappedModLoader.
    now rewrite (testFlag_disjoint _ _ NF), (testFlag_disjoint _ _ NA),
      (testFlag_disjoint _ _ NQ), (testFlag_self _ N0). }
  assert (HF : getMappedModLoader bits (Forge bits) = 1).
  { unfold getMappedModLoader. now rewrite (testFlag_self _ F0). }
  assert (HA : getMappedModLoader bits (Fabric bits) = 4).
  { unfold getMappedModLoader.
    now rewrite (testFlag_disjoint_sym _ _ FA), (testFlag_self _ A0). }
  assert (HQ : getMappedModLoader bits (Quilt bits) = 5).
  { unfold getMappedModLoader.
    now rewrite (testFlag_disjoint_sym _ _ FQ), (testFlag_disjoint_sym _ _ AQ),
      (testFlag_self _ Q0). }
  assert (Hlist : getModLoaderStrings bits types
    = ((if testFlag types (NeoForge bits) then ["6"] else []) ++
       (if testFlag types (Forge bits) then ["1"] else []) ++
       (if testFlag types (Fabric bits) then ["4"] else []) ++
       (if testFlag types (Quilt bits) then ["5"] else []))%list).
  { unfold getModLoaderStrings. cbn [fold_left]. rewrite HN, HF, HA, HQ.
    destruct (testFlag types (NeoForge bits)), (testFlag types (Forge bits)),
      (testFlag types (Fabric bits)), (testFlag types (Quilt bits)); reflexivity. }
  split; [exact Hlist|]. split.
  - intros H1 H2 H3 H4. unfold getModLoaderFilters. rewrite Hlist, H1, H2, H3, H4.
    reflexivity.
  - intros Hv. unfold getModLoaderFilters. rewrite Hlist.
    unfold validateModLoaders in Hv. rewrite !testFlag_lor in Hv.
    apply orb_false_elim in Hv as [Hv H4]. apply orb_false_elim in Hv as [Hv H3].
    apply orb_false_elim in Hv as [H1 H2]. rewrite H1, H2, H3, H4. reflexivity.
Qed.

End FlameFurther.

(** On the example bits: Forge with Quilt gives the filter of 1 and 5. *)
Lemma getModLoaderStrings_order_witness :
  FlameAPI.getModLoaderStrings FlameAPI.exampleBits 34 = ["1"; "5"] /\
  FlameAPI.getModLoaderFilters FlameAPI.exampleBits 51 = "[6,1,4,5]" /\
  FlameAPI.getModLoaderFilters FlameAPI.exampleBits 4 = "[]".
Proof.
  assert (Hsep : separateBits FlameAPI.exampleBits).
  { unfold separateBits. cbn. repeat split; (reflexivity || discriminate). }
  split; [|split].
  - apply (proj1 (getModLoaderStrings_order FlameAPI.exampleBits 34 Hsep)).
  - apply (proj1 (proj2 (getModLoaderStrings_order FlameAPI.exampleBits 51 Hsep)));
      reflexivity.
  - apply (proj2 (proj2 (getModLoaderStrings_order FlameAPI.exampleBits 4 Hsep))).
    reflexivity.
Defined.

(** On the example bits: a set with Forge is accepted and maps to 1; a set
    without any of the four loaders is refused. *)
Lemma loader_tests_agree_witness :
  FlameAPI.getMappedModLoader FlameAPI.exampleBits 34 <> 0 /\
  FlameAPI.getModLoaderStrings FlameAPI.exampleBits 34 <> [] /\
  FlameAPI.validateModLoaders FlameAPI.exampleBits 4 = false.
Proof.
  split; [|split].
  - apply (proj1 (proj1 (loader_tests_agree FlameAPI.exampleBits 34))). reflexivity.
  - apply (proj1 (proj2 (loader_tests_agree FlameAPI.exampleBits 34))). reflexivity.
  - reflexivity.
Defined.

Section FlameURLs.

Import ModPlatform FlameAPI QStringArg.

Variable bits : ModLoaderBits.
Variable overrideDeps : list OverrideDep.

Ltac fill_markers :=
  repeat match goal with
  | |- context [arg ?a "gameVersion=%1"] =>
      change "gameVersion=%1" with ("gameVersion=" +:+ "%1");
      rewrite (arg_at_end a "gameVersion=" eq_refl)
  | |- context [arg ?a "classId=%1"] =>
      change "classId=%1" with ("classId=" +:+ "%1");
      rewrite (arg_at_end a "classId=" eq_refl)
  | |- context [arg ?a "index=%1"] =>
      change "index=%1" with ("index=" +:+ "%1");
      rewrite (arg_at_end a "index=" eq_refl)
  | |- context [arg ?a "searchFilter=%1"] =>
      change "searchFilter=%1" with ("searchFilter=" +:+ "%1");
      rewrite (arg_at_end a "searchFilter=" eq_refl)
  | |- context [arg ?a "sortField=%1"] =>
      change "sortField=%1" with ("sortField=" +:+ "%1");
      rewrite (arg_at_end a "sortField=" eq_refl)
  | |- context [arg ?a "modLoaderTypes=%1"] =>
      change "modLoaderTypes=%1" with ("modLoaderTypes=" +:+ "%1");
      rewrite (arg_at_end a "modLoaderTypes=" eq_refl)
  end.

(** X3.  [getSearchURL] written out.  The parameters come in a fixed order:
    class id, index, page size 25, then the search text and the sort
    field if given, the descending order, the loader filter if given, and
    last the first game version.  The search text is put in as it is.
    Without game versions the URL ends with [&]; with an empty list of
    game versions the call has no defined result. *)
Theorem getSearchURL_written_out (args : SearchArgs) :
  (versions args = Some [] -> getSearchURL bits args = None) /\
  (forall gameVersion,
     (versions args = None /\ gameVersion = EmptyString) \/
     (exists v rest, versions args = Some (v :: rest) /\ gameVersion = "gameVersion=" +:+ v) ->
     getSearchURL bits args
     = Some (Some ("https://api.curseforge.com/v1/mods/search?gameId=432"
                   +:+ parameter "classId" (Some (number (getClassId (type args))))
                   +:+ parameter "index" (Some (number (offset args)))
                   +:+ "&pageSize=25"
                   +:+ parameter "searchFilter" (search args)
                   +:+ parameter "sortField" (option_map (fun m => number (index m)) (sorting args))
                   +:+ "&sortOrder=desc"
                   +:+ parameter "modLoaderTypes"
                         (option_map (getModLoaderFilters bits) (loaders args))
                   +:+ "&" +:+ gameVersion))).
Proof.
  split.
  - intros H. unfold getSearchURL. rewrite H. reflexivity.
  - intros gameVersion H.
    assert (Hgv : match versions args with
                  | Some vs => v ← front vs; Some (arg v "gameVersion=%1")
                  | None => Some EmptyString
                  end = Some gameVersion).
    { destruct H as [[-> ->]|(v & rest & -> & ->)]; [reflexivity|].
      cbn [front head mbind option_bind]. fill_markers. reflexivity. }
    unfold getSearchURL. rewrite Hgv. cbn [mbind option_bind].
    unfold parameter, option_map, join.
    destruct (search args) as [text|]; destruct (sorting args) as [method|];
      destruct (loaders args) as [types|];
      cbn [app String.concat]; fill_markers;
      rewrite ?append_assoc, ?append_nil_l; reflexivity.
Qed.

(** X4.  [getInfoURL] puts the identifier, whatever it is, behind the address of
    the projects, so that two identifiers with the same URL are equal. *)
Theorem getInfoURL_injective (id id' : string) :
  getInfoURL id = Some ("https://api.curseforge.com/v1/mods/" +:+ id) /\
  (getInfoURL id = getInfoURL id' -> id = id').
Proof.
  assert (H : forall a, getInfoURL a = Some ("https://api.curseforge.com/v1/mods/" +:+ a)).
  { intros a. unfold getInfoURL.
    change "https://api.curseforge.com/v1/mods/%1"
      with ("https://api.curseforge.com/v1/mods/" +:+ "%1").
    now rewrite (arg_at_end a "https://api.curseforge.com/v1/mods/" eq_refl). }
  split; [apply H|].
  rewrite (H id), (H id'). intros E.
  apply (String.app_inj "https://api.curseforge.com/v1/mods/"). congruence.
Qed.

Lemma versions_prefix a :
  arg a "https://api.curseforge.com/v1/mods/%1/files?pageSize=10000&"
  = "https://api.curseforge.com/v1/mods/" +:+ a +:+ "/files?pageSize=10000&".
Proof.
  change "https://api.curseforge.com/v1/mods/%1/files?pageSize=10000&"
    with ("https://api.curseforge.com/v1/mods/" +:+ "%1/files?pageSize=10000&").
  rewrite arg_free_prefix by reflexivity. reflexivity.
Qed.

Lemma getVersionsURL_first (args : VersionSearchArgs) v rest :
  mcVersions args = Some (v :: rest) ->
  getVersionsURL args
  = Some (Some ("https://api.curseforge.com/v1/mods/" +:+ pack_addonId args
                +:+ "/files?pageSize=10000&gameVersion=" +:+ v)).
Proof.
  unfold getVersionsURL. rewrite versions_prefix.
  intros ->. cbn [front head mbind option_bind app]. fill_markers.
  unfold join. cbn [String.concat]. now rewrite !append_assoc.
Qed.

(** X5.  [getVersionsURL] written out: the files of the project, 10000 to a
    page, and the first game version if versions are given.  Without game
    versions the URL ends with [&]; with an empty list of game versions the
    call has no defined result. *)
Theorem getVersionsURL_written_out (args : VersionSearchArgs) :
  (mcVersions args = None ->
     getVersionsURL args
     = Some (Some ("https://api.curseforge.com/v1/mods/" +:+ pack_addonId args
                   +:+ "/files?pageSize=10000&"))) /\
  (forall v rest, mcVersions args = Some (v :: rest) ->
     getVersionsURL args
     = Some (Some ("https://api.curseforge.com/v1/mods/" +:+ pack_addonId args
                   +:+ "/files?pageSize=10000&gameVersion=" +:+ v))) /\
  (mcVersions args = Some [] -> getVersionsURL args = None).
Proof.
  split; [|split].
  - unfold getVersionsURL. rewrite versions_prefix.
    intros ->. cbn. now rewrite !append_assoc, append_nil_r.
  - apply getVersionsURL_first.
  - unfold getVersionsURL. intros ->. reflexivity.
Qed.

(** X6.  For an identifier and a game version without percent sign, the URL of
    the dependency versions is the URL of the versions of that project for
    that game version, followed by the loader parameter; the loader id is 5
    or the value of [getMappedModLoader]. *)
Theorem getDependencyURL_extends_versions (args : DependencySearchArgs) :
  occurs "%" (addonId args) = false ->
  occurs "%" (mcVersion args) = false ->
  exists url id,
    getVersionsURL {| pack_addonId := addonId args; mcVersions := Some [mcVersion args] |}
      = Some (Some url) /\
    getDependencyURL bits overrideDeps args
      = Some (url +:+ "&modLoaderType=" +:+ number id) /\
    (id = 5 \/ id = getMappedModLoader bits (loader args)).
Proof.
  intros H1 H2.
  pose proof (getVersionsURL_first
                {| pack_addonId := addonId args; mcVersions := Some [mcVersion args] |}
                (mcVersion args) [] eq_refl) as Hv.
  cbn [pack_addonId] in Hv.
  eexists _, _. split; [exact Hv|].
  unfold getDependencyURL. rewrite (fill_template _ _ _ H1 H2).
  split; [now rewrite !append_assoc|].
  destruct (testFlag (loader args) (Quilt bits)); [|now right].
  destruct (find _ overrideDeps); [now left | now right].
Qed.

End FlameURLs.

(** Instances of the written-out URLs: a search for sodium sorted by field
    2 for Forge and Quilt on 1.20.1, and the same search without game
    versions. *)
Lemma getSearchURL_written_out_witness :
  FlameAPI.getSearchURL FlameAPI.exampleBits
    {| FlameAPI.type := ModPlatform.MOD; FlameAPI.offset := 0;
       FlameAPI.search := Some "sodium";
       FlameAPI.sorting := Some {| FlameAPI.index := 2; FlameAPI.name := "popularity";
                                   FlameAPI.readable_name := "Sort by Popularity" |};
       FlameAPI.loaders := Some 34; FlameAPI.versions := Some ["1.20.1"; "1.20"] |}
  = Some (Some "https://api.curseforge.com/v1/mods/search?gameId=432&classId=6&index=0&pageSize=25&searchFilter=sodium&sortField=2&sortOrder=desc&modLoaderTypes=[1,5]&gameVersion=1.20.1") /\
  FlameAPI.getSearchURL FlameAPI.exampleBits
    {| FlameAPI.type := ModPlatform.RESOURCE_PACK; FlameAPI.offset := 25;
       FlameAPI.search := None; FlameAPI.sorting := None;
       FlameAPI.loaders := None; FlameAPI.versions := None |}
  = Some (Some "https://api.curseforge.com/v1/mods/search?gameId=432&classId=12&index=25&pageSize=25&sortOrder=desc&") /\
  FlameAPI.getSearchURL FlameAPI.exampleBits
    {| FlameAPI.type := ModPlatform.MOD; FlameAPI.offset := 0;
       FlameAPI.search := None; FlameAPI.sorting := None;
       FlameAPI.loaders := None; FlameAPI.versions := Some [] |}
  = None.
Proof.
  split; [|split].
  - apply (proj2 (getSearchURL_written_out FlameAPI.exampleBits
             {| FlameAPI.type := ModPlatform.MOD; FlameAPI.offset := 0;
                FlameAPI.search := Some "sodium";
                FlameAPI.sorting := Some {| FlameAPI.index := 2; FlameAPI.name := "popularity";
                                            FlameAPI.readable_name := "Sort by Popularity" |};
                FlameAPI.loaders := Some 34; FlameAPI.versions := Some ["1.20.1"; "1.20"] |})
           "gameVersion=1.20.1").
    right. exists "1.20.1", ["1.20"]. split; reflexivity.
  - apply (proj2 (getSearchURL_written_out FlameAPI.exampleBits
             {| FlameAPI.type := ModPlatform.RESOURCE_PACK; FlameAPI.offset := 25;
                FlameAPI.search := None; FlameAPI.sorting := None;
                FlameAPI.loaders := None; FlameAPI.versions := None |})
           EmptyString).
    left. split; reflexivity.
  - apply (proj1 (getSearchURL_written_out FlameAPI.exampleBits
             {| FlameAPI.type := ModPlatform.MOD; FlameAPI.offset := 0;
                FlameAPI.search := None; FlameAPI.sorting := None;
                FlameAPI.loaders := None; FlameAPI.versions := Some [] |})).
    reflexivity.
Defined.

Lemma getInfoURL_injective_witness :
  FlameAPI.getInfoURL "306612" = Some "https://api.curseforge.com/v1/mods/306612" /\
  "306612" = "306612".
Proof.
  split.
  - apply (proj1 (getInfoURL_injective "306612" "306612")).
  - apply (proj2 (getInfoURL_injective "306612" "306612")). reflexivity.
Defined.

Lemma getVersionsURL_written_out_witness :
  FlameAPI.getVersionsURL {| FlameAPI.pack_addonId := "306612"; FlameAPI.mcVersions := None |}
  = Some (Some "https://api.curseforge.com/v1/mods/306612/files?pageSize=10000&") /\
  FlameAPI.getVersionsURL
    {| FlameAPI.pack_addonId := "306612"; FlameAPI.mcVersions := Some ["1.20.1"; "1.19"] |}
  = Some (Some "https://api.curseforge.com/v1/mods/306612/files?pageSize=10000&gameVersion=1.20.1") /\
  FlameAPI.getVersionsURL {| FlameAPI.pack_addonId := "306612"; FlameAPI.mcVersions := Some [] |}
  = None.
Proof.
  split; [|split].
  - apply (proj1 (getVersionsURL_written_out
             {| FlameAPI.pack_addonId := "306612"; FlameAPI.mcVersions := None |})).
    reflexivity.
  - apply (proj1 (proj2 (getVersionsURL_written_out
             {| FlameAPI.pack_addonId := "306612";
                FlameAPI.mcVersions := Some ["1.20.1"; "1.19"] |})) "1.20.1" ["1.19"]).
    reflexivity.
  - apply (proj2 (proj2 (getVersionsURL_written_out
             {| FlameAPI.pack_addonId := "306612"; FlameAPI.mcVersions := Some [] |}))).
    reflexivity.
Defined.

Lemma getDependencyURL_extends_versions_witness :
  exists url id,
    FlameAPI.getVersionsURL
      {| FlameAPI.pack_addonId := "634179"; FlameAPI.mcVersions := Some ["1.20.1"] |}
      = Some (Some url) /\
    FlameAPI.getDependencyURL FlameAPI.exampleBits FlameAPI.exampleOverrides
      {| FlameAPI.addonId := "634179"; FlameAPI.mcVersion := "1.20.1"; FlameAPI.loader := 34 |}
      = Some (url +:+ "&modLoaderType=" +:+ number id) /\
    (id = 5 \/ id = FlameAPI.getMappedModLoader FlameAPI.exampleBits 34).
Proof.
  apply (getDependencyURL_extends_versions FlameAPI.exampleBits FlameAPI.exampleOverrides
           {| FlameAPI.addonId := "634179"; FlameAPI.mcVersion := "1.20.1"; FlameAPI.loader := 34 |});
    reflexivity.
Defined.

(* ===================================================================== *)
(** * Further properties of the updater *)
(* ===================================================================== *)

Section UpdaterFurther.

Variable P : Platform.
Implicit Types (u v : Updater) (now : Z) (proc : ProcessResult) (result : ResultCode).

Local Arguments timeoutDuration : simpl never.

(** ** What a method leaves alone *)

Lemma sameControls_refl u : sameControls u u.
Proof. unfold sameControls. auto 10. Qed.

Lemma offerUpdate_controls version_name version_tag release_notes result u :
  sameControls u (offerUpdate P version_name version_tag release_notes result u).
Proof.
  unfold offerUpdate, sameControls.
  destruct (toBool _); [cbn; auto 10|].
  destruct result; cbn; auto 10.
Qed.

Lemma offerUpdate_lastCheck version_name version_tag release_notes result u :
  lastCheck (priv (offerUpdate P version_name version_tag release_notes result u))
  = lastCheck (priv u).
Proof.
  unfold offerUpdate.
  destruct (toBool _); [reflexivity|]. destruct result; reflexivity.
Qed.

(** The run of a check up to its dialogs: the events of the start, and the
    updater handed to the [switch]. *)
Lemma checkForUpdates_unfold proc result now u :
  checkForUpdates P proc result now u =
  let u0 := {| priv := priv u; connected := connected u;
               events := (events u ++ checkEvents P u)%list |} in
  let mid :=
    if exitCode proc =? 0 then
      emit (InformationBox "No Update Available" "You are running the latest version.") u0
    else if exitCode proc =? 1 then
      emit (WarningBox "Update Check Error" "There was an error running the update check."
              (readAllStandardError proc)) u0
    else if exitCode proc =? 100 then
      let '(version_name, version_tag, release_timestamp, release_notes) :=
        parseUpdateAvailable P (readAllStandardOutput proc) in
      offerUpdate P version_name version_tag release_notes result u0
    else u0 in
  with_priv (on_settings sync)
    (with_priv (on_settings
       (setValue "last_check" (VString (toString_ISODate P (Some now)))))
       (with_priv (set_lastCheck (Some now)) mid)).
Proof.
  unfold checkForUpdates, checkEvents, emit. cbn [priv connected events].
  rewrite <- !app_assoc. cbn [app].
  destruct (allowBeta (priv u)); reflexivity.
Qed.

Lemma checkForUpdates_controls proc result now u :
  sameControls u (checkForUpdates P proc result now u).
Proof.
  rewrite checkForUpdates_unfold. cbv zeta.
  match goal with
  | |- sameControls u (with_priv _ (with_priv _ (with_priv _ ?m))) =>
      assert (Hmid : sameControls u m); [|exact Hmid]
  end.
  destruct (exitCode proc =? 0); [unfold sameControls; cbn; auto 10|].
  destruct (exitCode proc =? 1); [unfold sameControls; cbn; auto 10|].
  destruct (exitCode proc =? 100); [|unfold sameControls; cbn; auto 10].
  destruct (parseUpdateAvailable P (readAllStandardOutput proc)) as [[[vn vt] ts] rn].
  exact (offerUpdate_controls vn vt rn result
           {| priv := priv u; connected := connected u;
              events := (events u ++ checkEvents P u)%list |}).
Qed.

(** X7.  A check leaves the timer and the preferences as they are: it records
    the time of the check, but the timer keeps the interval it was armed
    with, whatever the exit code and the answer of the operator; so the
    next check starts the same program with the same arguments. *)
Theorem checkForUpdates_keeps_controls proc result now u :
  sameControls u (checkForUpdates P proc result now u) /\
  checkEvents P (checkForUpdates P proc result now u) = checkEvents P u.
Proof.
  pose proof (checkForUpdates_controls proc result now u) as H.
  split; [exact H|].
  destruct H as (_ & _ & _ & Hb & Ha & Hd & _).
  unfold checkEvents. now rewrite Hb, Ha, Hd.
Qed.

(** ** The skip list and the other keys *)

Lemma skip_key_not (key tag : string) (c : ascii) rest :
  key = String c rest -> c <> "s"%char -> key <> "skip/" +:+ tag.
Proof.
  intros -> Hc E. rewrite append_cons in E. injection E as E _. contradiction.
Qed.

Lemma skipEntry_setValue_other key (x : QVariant) tag q :
  groups q = [] -> key <> "skip/" +:+ tag ->
  skipEntry tag (setValue key x q) = skipEntry tag q.
Proof.
  intros Hidle Hne. unfold skipEntry, value.
  assert (Hk : forall q', groups q' = [] ->
            actualKey (beginGroup "skip" q') tag = "skip/" +:+ tag).
  { intros q' Hq'. now apply actualKey_skip. }
  rewrite (Hk _ Hidle), (Hk (setValue key x q) Hidle).
  unfold setValue. cbn [beginGroup cache]. rewrite (actualKey_idle _ _ Hidle).
  now rewrite lookup_insert_ne.
Qed.

Lemma skipEntry_sync tag q : skipEntry tag (sync q) = skipEntry tag q.
Proof. reflexivity. Qed.

Lemma skipEntry_last_check tag (x : QVariant) q :
  groups q = [] -> skipEntry tag (sync (setValue "last_check" x q)) = skipEntry tag q.
Proof.
  intros Hidle. rewrite skipEntry_sync. apply skipEntry_setValue_other; [exact Hidle|].
  apply (skip_key_not _ _ "l" "ast_check" eq_refl). discriminate.
Qed.

(** The settings of the updater handed to the [switch] of a check. *)
Lemma checkForUpdates_settings proc result now u :
  settings (priv (checkForUpdates P proc result now u))
  = sync (setValue "last_check" (VString (toString_ISODate P (Some now)))
      (if exitCode proc =? 0 then settings (priv u)
       else if exitCode proc =? 1 then settings (priv u)
       else if exitCode proc =? 100 then
         let '(version_name, version_tag, release_timestamp, release_notes) :=
           parseUpdateAvailable P (readAllStandardOutput proc) in
         settings (priv (offerUpdate P version_name version_tag release_notes result
           {| priv := priv u; connected := connected u;
              events := (events u ++ checkEvents P u)%list |}))
       else settings (priv u))).
Proof.
  rewrite checkForUpdates_unfold. cbv zeta.
  destruct (exitCode proc =? 0); [reflexivity|].
  destruct (exitCode proc =? 1); [reflexivity|].
  destruct (exitCode proc =? 100); [|reflexivity].
  destruct (parseUpdateAvailable P (readAllStandardOutput proc)) as [[[vn vt] ts] rn].
  reflexivity.
Qed.

Lemma checkForUpdates_events proc result now u :
  events (checkForUpdates P proc result now u)
  = (if exitCode proc =? 0 then
       (events u ++ checkEvents P u ++
        [InformationBox "No Update Available" "You are running the latest version."])%list
     else if exitCode proc =? 1 then
       (events u ++ checkEvents P u ++
        [WarningBox "Update Check Error" "There was an error running the update check."
           (readAllStandardError proc)])%list
     else if exitCode proc =? 100 then
       let '(version_name, version_tag, release_timestamp, release_notes) :=
         parseUpdateAvailable P (readAllStandardOutput proc) in
       events (offerUpdate P version_name version_tag release_notes result
         {| priv := priv u; connected := connected u;
            events := (events u ++ checkEvents P u)%list |})
     else (events u ++ checkEvents P u)%list).
Proof.
  rewrite checkForUpdates_unfold. cbv zeta.
  destruct (exitCode proc =? 0); [cbn; now rewrite <- app_assoc|].
  destruct (exitCode proc =? 1); [cbn; now rewrite <- app_assoc|].
  destruct (exitCode proc =? 100); [|reflexivity].
  destruct (parseUpdateAvailable P (readAllStandardOutput proc)) as [[[vn vt] ts] rn].
  reflexivity.
Qed.

(** X8.  A check that ends with exit code 1 shows the warning with the error
    output of the updater as its details; one that ends with a code other
    than 0, 1 and 100 shows nothing after the progress dialog.  No run with
    a code other than 100 touches the skip list: the settings file is what
    the settings object held, with the time of the check. *)
Theorem checkForUpdates_without_offer proc result now u :
  idle u ->
  (exitCode proc = 1 ->
     events (checkForUpdates P proc result now u)
     = (events u ++ checkEvents P u ++
        [WarningBox "Update Check Error" "There was an error running the update check."
           (readAllStandardError proc)])%list) /\
  (exitCode proc <> 0 -> exitCode proc <> 1 -> exitCode proc <> 100 ->
     events (checkForUpdates P proc result now u) = (events u ++ checkEvents P u)%list) /\
  (exitCode proc <> 100 ->
     stored (settings (priv (checkForUpdates P proc result now u)))
     = <["last_check" := VString (toString_ISODate P (Some now))]> (cache (settings (priv u))) /\
     forall tag, skipEntry tag (settings (priv (checkForUpdates P proc result now u)))
                 = skipEntry tag (settings (priv u))).
Proof.
  intros Hidle. split; [|split].
  - intros H. rewrite checkForUpdates_events, H. reflexivity.
  - intros H0 H1 H100. rewrite checkForUpdates_events.
    destruct (Z.eqb_spec (exitCode proc) 0); [contradiction|].
    destruct (Z.eqb_spec (exitCode proc) 1); [contradiction|].
    destruct (Z.eqb_spec (exitCode proc) 100); [contradiction|]. reflexivity.
  - intros H100. rewrite checkForUpdates_settings.
    assert (Hq : (if exitCode proc =? 0 then settings (priv u)
       else if exitCode proc =? 1 then settings (priv u)
       else if exitCode proc =? 100 then
         let '(version_name, version_tag, release_timestamp, release_notes) :=
           parseUpdateAvailable P (readAllStandardOutput proc) in
         settings (priv (offerUpdate P version_name version_tag release_notes result
           {| priv := priv u; connected := connected u;
              events := (events u ++ checkEvents P u)%list |}))
       else settings (priv u)) = settings (priv u)).
    { destruct (exitCode proc =? 0); [reflexivity|].
      destruct (exitCode proc =? 1); [reflexivity|].
      destruct (Z.eqb_spec (exitCode proc) 100); [contradiction|reflexivity]. }
    rewrite Hq. split.
    + cbn. now rewrite (actualKey_idle _ _ Hidle).
    + intros tag. now apply skipEntry_last_check.
Qed.

(** ** Versions on the skip list *)

Lemma offerUpdate_on_skip_list version_name version_tag release_notes result u :
  skipEntry version_tag (settings (priv u)) = true ->
  offerUpdate P version_name version_tag release_notes result u = u.
Proof.
  unfold offerUpdate, skipEntry. cbn [with_priv on_settings priv settings].
  intros ->.
  destruct u as [[a d tm b c i l s] cn ev]. unfold with_priv, on_settings. cbn.
  now rewrite endGroup_beginGroup.
Qed.

Lemma checkForUpdates_idle proc result now u :
  idle u -> idle (checkForUpdates P proc result now u).
Proof.
  unfold idle. intros Hidle. rewrite checkForUpdates_settings. cbn [sync setValue groups].
  destruct (exitCode proc =? 0); [exact Hidle|].
  destruct (exitCode proc =? 1); [exact Hidle|].
  destruct (exitCode proc =? 100); [|exact Hidle].
  destruct (parseUpdateAvailable P (readAllStandardOutput proc)) as [[[vn vt] ts] rn].
  now rewrite offerUpdate_groups.
Qed.

Lemma checkForUpdates_silent proc result now u vn vt ts rn :
  idle u -> exitCode proc = 100 ->
  parseUpdateAvailable P (readAllStandardOutput proc) = (vn, vt, ts, rn) ->
  skipEntry vt (settings (priv u)) = true ->
  events (checkForUpdates P proc result now u) = (events u ++ checkEvents P u)%list /\
  skipEntry vt (settings (priv (checkForUpdates P proc result now u))) = true.
Proof.
  intros Hidle H100 Hparse Hskip.
  rewrite checkForUpdates_events, checkForUpdates_settings, H100, Hparse.
  cbn [Z.eqb Pos.eqb]. rewrite offerUpdate_on_skip_list by exact Hskip.
  split; [reflexivity|]. now rewrite skipEntry_last_check.
Qed.

(** X9.  A version on the skip list is passed over in silence: when the updater
    reports it with exit code 100, the run shows nothing after the progress
    dialog.  And once the operator has answered the offer of a version with
    Skip (or with Install), every later run that reports the same output
    passes it over in the same way, whatever the answer would be. *)
Theorem skipped_version_is_silent proc result now u vn vt ts rn :
  idle u -> exitCode proc = 100 ->
  parseUpdateAvailable P (readAllStandardOutput proc) = (vn, vt, ts, rn) ->
  (skipEntry vt (settings (priv u)) = true ->
     events (checkForUpdates P proc result now u) = (events u ++ checkEvents P u)%list) /\
  (skipEntry vt (settings (priv u)) = false -> result = Skip \/ result = Install ->
     forall result' now',
       let u1 := checkForUpdates P proc result now u in
       events (checkForUpdates P proc result' now' u1) = (events u1 ++ checkEvents P u)%list).
Proof.
  intros Hidle H100 Hparse. split.
  - intros Hskip. now apply (checkForUpdates_silent proc result now u vn vt ts rn).
  - intros Hskip Hres result' now' u1.
    assert (Hcontrols : checkEvents P u1 = checkEvents P u).
    { destruct (checkForUpdates_controls proc result now u) as (_ & _ & _ & Hb & Ha & Hd & _).
      unfold checkEvents, u1. now rewrite Hb, Ha, Hd. }
    assert (Hskip1 : skipEntry vt (settings (priv u1)) = true).
    { unfold u1. rewrite checkForUpdates_settings, H100, Hparse. cbn [Z.eqb Pos.eqb].
      rewrite skipEntry_last_check by (rewrite offerUpdate_groups; exact Hidle).
      rewrite offerUpdate_not_skipped by exact Hskip. cbv zeta.
      destruct Hres as [-> | ->]; apply markSkipped_skipEntry. }
    rewrite <- Hcontrols.
    apply (checkForUpdates_silent proc result' now' u1 vn vt ts rn);
      [apply checkForUpdates_idle; exact Hidle | exact H100 | exact Hparse | exact Hskip1].
Qed.

Lemma markSkipped_other tag tag' u :
  idle u -> tag <> tag' ->
  skipEntry tag' (settings (priv (markSkipped tag u))) = skipEntry tag' (settings (priv u)).
Proof.
  unfold idle. intros Hidle Hne. rewrite markSkipped_settings. rewrite skipEntry_sync.
  unfold skipEntry, value.
  set (q := settings (priv u)) in *. destruct q as [gs c s]. cbn in Hidle. subst gs.
  unfold actualKey, beginGroup, endGroup, setValue. cbn.
  rewrite lookup_insert_ne; [reflexivity|].
  intros E. apply Hne. apply (String.app_inj "skip/") in E. exact E.
Qed.

(** X10.  Answering an offer changes the skip entry of no other version: the
    entries of the tags other than the offered one are as before. *)
Theorem offerUpdate_other_tags version_name version_tag release_notes result u tag' :
  idle u -> version_tag <> tag' ->
  skipEntry tag' (settings (priv (offerUpdate P version_name version_tag release_notes result u)))
  = skipEntry tag' (settings (priv u)).
Proof.
  intros Hidle Hne.
  destruct (skipEntry version_tag (settings (priv u))) eqn:Hskip.
  - now rewrite offerUpdate_on_skip_list.
  - rewrite offerUpdate_not_skipped by exact Hskip. cbv zeta.
    destruct result; try reflexivity; now rewrite markSkipped_other.
Qed.

(** ** Starting up *)

(** X11.  The first start.  Over a settings file without the keys [allow_beta],
    [auto_check] and [last_check], and whose [update_interval] is missing
    or is a text that is no number, the constructor gives the defaults:
    beta versions not allowed, auto-check off, an interval of 86400
    seconds, no last check, the timer not armed, and nothing shown. *)
Theorem PrismExternalUpdater_defaults appDir dataDir content now :
  content !! "allow_beta" = None ->
  content !! "auto_check" = None ->
  content !! "last_check" = None ->
  (content !! "update_interval" = None \/
   exists text, content !! "update_interval" = Some (VString text) /\
                snd (string_toInt text) = false) ->
  PrismExternalUpdater P appDir dataDir content now
  = Some {| priv := {| appDir := appDir; dataDir := dataDir;
                       updateTimer := TimerInactive;
                       allowBeta := false; autoCheck := false;
                       updateInterval := int_to_double 86400; lastCheck := None;
                       settings := open content |};
            connected := true; events := [] |}.
Proof.
  intros Hb Ha Hl Hi. rewrite PrismExternalUpdater_loaded. unfold loaded.
  rewrite Hb, Ha, Hl. cbn [default from_option id toBool v_isNull v_isValid negb andb].
  assert (Hint : (if negb (snd (toInt (default (VInt 86400) (content !! "update_interval"))))
                  then 86400
                  else fst (toInt (default (VInt 86400) (content !! "update_interval"))))
                 = 86400).
  { destruct Hi as [-> | (text & -> & Hbad)]; [reflexivity|].
    cbn [default from_option id toInt]. now rewrite Hbad. }
  cbv zeta. rewrite Hint. reflexivity.
Qed.

(** X12.  With auto-check on in the settings file and no last check there (or
    one whose text is no date), the constructor arms the timer with 0: the
    first check is due at once, whatever the interval. *)
Theorem PrismExternalUpdater_checks_at_once appDir dataDir content now :
  toBool (default (VBool false) (content !! "auto_check")) = true ->
  (content !! "last_check" = None \/
   fromString_ISODate P
     (toString (number_double P) (default VInvalid (content !! "last_check"))) = None) ->
  exists v, PrismExternalUpdater P appDir dataDir content now = Some v /\
            updateTimer (priv v) = TimerActive 0 /\
            lastCheck (priv v) = None /\
            events v = [].
Proof.
  intros Ha Hl. rewrite PrismExternalUpdater_loaded.
  assert (Hlast : lastCheck (priv (loaded P appDir dataDir content)) = None).
  { unfold loaded. cbn [priv lastCheck].
    destruct Hl as [-> | Hnone]; [reflexivity|].
    rewrite Hnone. now destruct (_ && _). }
  eexists. split.
  - apply resetAutoCheckTimer_enabled; [exact Ha|].
    apply timeoutDuration_no_check. exact Hlast.
  - cbn. split; [reflexivity|]. split; [exact Hlast | reflexivity].
Qed.

(** ** What a restart reads back *)

(** X13.  The time of a check is read back by the next start through its ISO
    text: after a run of [checkForUpdates] at [now], an updater constructed
    over the settings file has as last check what the reader of ISO dates
    makes of the text written for [now]; and it has the skip entries that
    the run left. *)
Theorem checkForUpdates_survives_restart proc result now u appDir dataDir now' v :
  idle u ->
  PrismExternalUpdater P appDir dataDir
    (stored (settings (priv (checkForUpdates P proc result now u)))) now' = Some v ->
  lastCheck (priv v) = fromString_ISODate P (toString_ISODate P (Some now)) /\
  forall tag, skipEntry tag (settings (priv v))
              = skipEntry tag (settings (priv (checkForUpdates P proc result now u))).
Proof.
  intros Hidle Hv.
  pose proof (checkForUpdates_idle proc result now u Hidle) as Hidle'.
  apply PrismExternalUpdater_fields in Hv as [tm ->]. cbn [priv with_priv set_updateTimer lastCheck settings loaded].
  split.
  - rewrite checkForUpdates_settings. cbn [sync stored setValue cache].
    match goal with
    | |- context [actualKey ?q "last_check"] =>
        assert (Hq : groups q = []); [|rewrite (actualKey_idle _ q Hq)]
    end.
    { destruct (exitCode proc =? 0); [exact Hidle|].
      destruct (exitCode proc =? 1); [exact Hidle|].
      destruct (exitCode proc =? 100); [|exact Hidle].
      destruct (parseUpdateAvailable P (readAllStandardOutput proc)) as [[[vn vt] ts] rn].
      rewrite offerUpdate_groups. exact Hidle. }
    rewrite lookup_insert_eq. reflexivity.
  - intros tag. unfold skipEntry, value, idle in *.
    rewrite (actualKey_skip _ _ Hidle'), (actualKey_skip _ (open _) eq_refl).
    cbn [beginGroup cache open]. rewrite checkForUpdates_settings. reflexivity.
Qed.

(** X14.  A skipped version stays skipped over a restart: after the operator has
    answered the offer of a version with Skip (or Install), an updater
    constructed over the settings file returns from [offerUpdate] for that
    version as it was, without a dialog. *)
Theorem skip_survives_restart version_name version_tag release_notes result u
    appDir dataDir now v :
  idle u ->
  skipEntry version_tag (settings (priv u)) = false ->
  result = Skip \/ result = Install ->
  PrismExternalUpdater P appDir dataDir
    (stored (settings (priv (offerUpdate P version_name version_tag release_notes result u))))
    now = Some v ->
  forall version_name' release_notes' result',
    offerUpdate P version_name' version_tag release_notes' result' v = v.
Proof.
  intros Hidle Hskip Hres Hv name' notes' result'.
  apply offerUpdate_on_skip_list.
  apply PrismExternalUpdater_fields in Hv as [tm ->].
  cbn [priv with_priv set_updateTimer settings loaded].
  unfold skipEntry, value. rewrite (actualKey_skip _ (open _) eq_refl).
  cbn [beginGroup cache open].
  rewrite offerUpdate_not_skipped by exact Hskip. cbv zeta.
  destruct Hres as [-> | ->]; rewrite markSkipped_stored; try reflexivity; exact Hidle.
Qed.

(** X15.  The beta preference does not survive a restart: whatever value
    [setBetaAllowed] is given, an updater constructed over the settings
    file reads the preference from the key [allow_beta], which the setter
    leaves as it was. *)
Theorem setBetaAllowed_lost_on_restart allowed u appDir dataDir now v :
  idle u ->
  PrismExternalUpdater P appDir dataDir (stored (settings (priv (setBetaAllowed allowed u)))) now
    = Some v ->
  getBetaAllowed v
  = toBool (default (VBool false) (cache (settings (priv u)) !! "allow_beta")).
Proof.
  unfold idle. intros Hidle Hv.
  apply PrismExternalUpdater_fields in Hv as [tm ->].
  unfold getBetaAllowed. cbn. rewrite (actualKey_idle _ _ Hidle).
  now rewrite lookup_insert_ne.
Qed.

(** ** The settings file between two calls *)

Lemma offerUpdate_synced version_name version_tag release_notes result u :
  synced u -> synced (offerUpdate P version_name version_tag release_notes result u).
Proof.
  unfold synced, offerUpdate. intros Hs.
  destruct (toBool _); [exact Hs|].
  destruct result; first [reflexivity | exact Hs].
Qed.

(** X16.  The settings file is kept up to date: it holds what the settings object
    holds after the constructor, after each setter (however its last
    statement comes out) and after a check, and an offer keeps it so.
    Hence the destructor, which synchronises once more, leaves the file as
    it is. *)
Theorem settings_file_up_to_date :
  (forall appDir dataDir content now v,
     PrismExternalUpdater P appDir dataDir content now = Some v -> synced v) /\
  (forall check now u, synced (reached (setAutomaticallyChecksForUpdates check now u))) /\
  (forall seconds now u, synced (reached (setUpdateCheckInterval seconds now u))) /\
  (forall allowed u, synced (setBetaAllowed allowed u)) /\
  (forall proc result now u, synced (checkForUpdates P proc result now u)) /\
  (forall version_name version_tag release_notes result u,
     synced u -> synced (offerUpdate P version_name version_tag release_notes result u)) /\
  (forall u, synced u -> destroy u = stored (settings (priv u))).
Proof.
  split; [|split; [|split; [|split; [|split; [|split]]]]].
  - intros a d content now v Hv. apply PrismExternalUpdater_fields in Hv as [tm ->].
    reflexivity.
  - intros check now u. unfold setAutomaticallyChecksForUpdates.
    match goal with |- context [rearm now ?x] => destruct (rearm_reached now x) as [tm ->] end.
    reflexivity.
  - intros seconds now u. unfold setUpdateCheckInterval.
    match goal with |- context [rearm now ?x] => destruct (rearm_reached now x) as [tm ->] end.
    reflexivity.
  - intros allowed u. reflexivity.
  - intros proc result now u. unfold synced. now rewrite checkForUpdates_settings.
  - intros. now apply offerUpdate_synced.
  - intros u Hs. unfold destroy. unfold synced in Hs.
    destruct (isActive (updateTimer (priv u))); cbn; now rewrite Hs.
Qed.

(** X17.  The setters leave the skip list alone: after each of the three, the
    skip entry of every version is what it was. *)
Theorem setters_keep_skip_list now u tag :
  idle u ->
  (forall check,
     skipEntry tag (settings (priv (reached (setAutomaticallyChecksForUpdates check now u))))
     = skipEntry tag (settings (priv u))) /\
  (forall seconds,
     skipEntry tag (settings (priv (reached (setUpdateCheckInterval seconds now u))))
     = skipEntry tag (settings (priv u))) /\
  (forall allowed,
     skipEntry tag (settings (priv (setBetaAllowed allowed u)))
     = skipEntry tag (settings (priv u))).
Proof.
  unfold idle. intros Hidle. split; [|split].
  - intros check. unfold setAutomaticallyChecksForUpdates.
    match goal with |- context [rearm now ?x] => destruct (rearm_reached now x) as [tm ->] end.
    cbn [priv with_priv set_updateTimer on_settings set_autoCheck settings].
    rewrite skipEntry_sync. apply skipEntry_setValue_other; [exact Hidle|].
    apply (skip_key_not _ _ "a" "uto_check" eq_refl). discriminate.
  - intros seconds. unfold setUpdateCheckInterval.
    match goal with |- context [rearm now ?x] => destruct (rearm_reached now x) as [tm ->] end.
    cbn [priv with_priv set_updateTimer on_settings set_updateInterval settings].
    rewrite skipEntry_sync. apply skipEntry_setValue_other; [exact Hidle|].
    apply (skip_key_not _ _ "u" "pdate_interval" eq_refl). discriminate.
  - intros allowed. unfold setBetaAllowed.
    cbn [priv with_priv on_settings set_allowBeta settings].
    rewrite skipEntry_sync. apply skipEntry_setValue_other; [exact Hidle|].
    apply (skip_key_not _ _ "a" "uto_beta" eq_refl). discriminate.
Qed.

(** ** The beta preference in the running updater *)

Lemma offerUpdate_appends version_name version_tag release_notes result u :
  exists l, events (offerUpdate P version_name version_tag release_notes result u)
            = (events u ++ l)%list.
Proof.
  unfold offerUpdate. cbn [with_priv on_settings priv settings events].
  destruct (toBool _); [exists []; cbn; now rewrite app_nil_r|].
  destruct result; cbn; rewrite <- ?app_assoc; eauto.
Qed.

(** X18.  The beta preference takes effect at once: after [setBetaAllowed], the
    check starts the updater with [--pre-release] exactly when beta
    versions are allowed, and so does the installation. *)
Theorem setBetaAllowed_reaches_updater allowed proc result now version_tag u :
  let u1 := setBetaAllowed allowed u in
  In (ProcessStarted (absoluteFilePath (appDir (priv u)) (exe_name P))
        (["--check-only"; "--dir"; absolutePath (dataDir (priv u)); "--debug"]
         ++ (if allowed then ["--pre-release"] else []))%list)
     (events (checkForUpdates P proc result now u1)) /\
  In (ProcessStartedDetached (absoluteFilePath (appDir (priv u)) (exe_name P))
        (["--dir"; absolutePath (dataDir (priv u)); "--install-version"; version_tag]
         ++ (if allowed then ["--pre-release"] else []))%list)
     (events (performUpdate P version_tag u1)).
Proof.
  cbv zeta. split.
  - assert (Hin : In (ProcessStarted (absoluteFilePath (appDir (priv u)) (exe_name P))
        (["--check-only"; "--dir"; absolutePath (dataDir (priv u)); "--debug"]
         ++ (if allowed then ["--pre-release"] else []))%list)
        (checkEvents P (setBetaAllowed allowed u))).
    { unfold checkEvents. cbn. right. left. reflexivity. }
    rewrite checkForUpdates_events.
    set (u1 := setBetaAllowed allowed u) in *.
    assert (Hpre : forall l, In (ProcessStarted (absoluteFilePath (appDir (priv u)) (exe_name P))
        (["--check-only"; "--dir"; absolutePath (dataDir (priv u)); "--debug"]
         ++ (if allowed then ["--pre-release"] else []))%list)
        (events u1 ++ checkEvents P u1 ++ l)%list).
    { intros l. apply in_or_app. right. apply in_or_app. left. exact Hin. }
    destruct (exitCode proc =? 0); [apply Hpre|].
    destruct (exitCode proc =? 1); [apply Hpre|].
    destruct (exitCode proc =? 100).
    + destruct (parseUpdateAvailable P (readAllStandardOutput proc)) as [[[vn vt] ts] rn].
      specialize (Hpre []). rewrite app_nil_r in Hpre.
      destruct (offerUpdate_appends vn vt rn result
                  {| priv := priv u1; connected := connected u1;
                     events := (events u1 ++ checkEvents P u1)%list |}) as [l ->].
      apply in_or_app. left. exact Hpre.
    + specialize (Hpre []). now rewrite app_nil_r in Hpre.
  - unfold performUpdate. cbn. apply in_or_app. left. apply in_or_app. right.
    left. destruct allowed; reflexivity.
Qed.

End UpdaterFurther.

(* ===================================================================== *)
(** * Further properties of the scheduler *)
(* ===================================================================== *)

Section SchedulerFurther.

Implicit Types (u : Updater) (now t : Z) (p : Private).

(** X19.  The timer is armed only with an [int] that is not negative, and only
    when auto-check is on; and the one case in which the scheduler has no
    defined result is auto-check on with a last check and milliseconds
    left that no [int] holds: their whole part, if they have one, is above
    the largest [int]. *)
Theorem resetAutoCheckTimer_range now u :
  (forall u' d, resetAutoCheckTimer now u = Some u' ->
     updateTimer (priv u') = TimerActive d ->
     0 <= d <= INT_MAX /\ autoCheck (priv u) = true) /\
  (resetAutoCheckTimer now u = None <->
     autoCheck (priv u) = true /\
     exists t, lastCheck (priv u) = Some t /\
       forall z, truncate (millisecondsLeft now (priv u)) = Some z -> INT_MAX < z).
Proof.
  split.
  - intros u' d. unfold resetAutoCheckTimer.
    destruct (autoCheck (priv u)).
    + destruct (timeoutDuration now (priv u)) as [d0|] eqn:Hd; cbn; [|discriminate].
      intros [= <-]. cbn. intros [= <-]. split; [|reflexivity].
      now apply (timeoutDuration_range now (priv u)).
    + destruct (isActive (updateTimer (priv u))) eqn:Hact; intros [= <-]; cbn.
      * discriminate.
      * intros Ht. rewrite Ht in Hact. discriminate Hact.
  - split.
    + unfold resetAutoCheckTimer. destruct (autoCheck (priv u)).
      * destruct (timeoutDuration now (priv u)) as [d0|] eqn:Hd; cbn; [discriminate|].
        intros _. split; [reflexivity|].
        destruct (lastCheck (priv u)) as [t|] eqn:Hl.
        -- exists t. split; [reflexivity|]. intros z Hz.
           change (truncate (millisecondsLeft now (priv u)) = Some z) in Hz.
           destruct (Z.le_gt_cases z INT_MAX) as [Hle|Hgt]; [|lia].
           rewrite (timeoutDuration_check now (priv u) t Hl) in Hd.
           unfold double_to_int in Hd. rewrite Hz in Hd. cbn in Hd.
           rewrite in_int_true in Hd; [discriminate Hd|].
           split; [|exact Hle].
           pose proof (truncate_sign _ _ Hz (millisecondsLeft_not_negative now (priv u))).
           unfold INT_MIN. lia.
        -- rewrite (timeoutDuration_no_check now (priv u) Hl) in Hd. discriminate Hd.
      * destruct (isActive _); discriminate.
    + intros (Ha & t & Hl & Hgt). apply resetAutoCheckTimer_undefined; [exact Ha|].
      rewrite (timeoutDuration_check now (priv u) t Hl). unfold double_to_int.
      destruct (truncate (millisecondsLeft now (priv u))) as [z|] eqn:Hz; [|reflexivity].
      cbn. unfold in_int. specialize (Hgt z eq_refl).
      destruct (Z.leb_spec z INT_MAX); [lia|]. now rewrite andb_false_r.
Qed.

(** X21.  Auto-check can always be switched off, and the timer is then not
    armed; and while it is off, any interval can be set and the timer
    stays unarmed. *)
Theorem auto_check_off_never_arms now u :
  (exists u', setAutomaticallyChecksForUpdates false now u = Returned u' /\
     updateTimer (priv u') = TimerInactive /\
     getAutomaticallyChecksForUpdates u' = false) /\
  (autoCheck (priv u) = false ->
     forall seconds, exists u', setUpdateCheckInterval seconds now u = Returned u' /\
       updateTimer (priv u') = TimerInactive /\
       getUpdateCheckInterval u' = seconds).
Proof.
  split.
  - unfold setAutomaticallyChecksForUpdates, rearm.
    rewrite resetAutoCheckTimer_disabled by reflexivity. eexists. split; [reflexivity|].
    split; reflexivity.
  - intros Ha seconds. unfold setUpdateCheckInterval, rearm.
    rewrite resetAutoCheckTimer_disabled by exact Ha. eexists. split; [reflexivity|].
    split; reflexivity.
Qed.

End SchedulerFurther.

(* ===================================================================== *)
(** * Further properties of the parser *)
(* ===================================================================== *)

Section ParserFurther.

Variable P : Platform.

Lemma trim_right_space s c :
  isSpace c = true -> trim_right (s +:+ String c EmptyString) = trim_right s.
Proof.
  intros Hc. induction s as [|x s IH].
  - rewrite append_nil_l. cbn. now rewrite Hc.
  - rewrite append_cons. cbn. now rewrite IH.
Qed.

Lemma trimmed_space s c :
  isSpace c = true -> trimmed (s +:+ String c EmptyString) = trimmed s.
Proof.
  intros Hc. unfold trimmed. induction s as [|x s IH].
  - rewrite append_nil_l. cbn. now rewrite Hc.
  - rewrite append_cons. cbn [trim_left]. destruct (isSpace x); [exact IH|].
    rewrite <- append_cons. now apply trim_right_space.
Qed.

(** X22.  Output with Windows line ends is read like output with plain line
    feeds: when each of the three header lines ends with carriage return
    and line feed, the name, the tag and the timestamp are the same as
    without the carriage returns. *)
Theorem parseUpdateAvailable_crlf l1 v1 l2 v2 l3 v3 notes :
  occurs ":" l1 = false -> occurs LF l1 = false -> occurs LF v1 = false ->
  occurs ":" l2 = false -> occurs LF l2 = false -> occurs LF v2 = false ->
  occurs ":" l3 = false -> occurs LF l3 = false -> occurs LF v3 = false ->
  parseUpdateAvailable P
    (labelledCRLF l1 v1 +:+ labelledCRLF l2 v2 +:+ labelledCRLF l3 v3 +:+ notes)
  = parseUpdateAvailable P
    (labelled l1 v1 +:+ labelled l2 v2 +:+ labelled l3 v3 +:+ notes).
Proof.
  intros C1 N1 M1 C2 N2 M2 C3 N3 M3.
  assert (Hcr : forall l v, labelledCRLF l v = labelled l (v +:+ String CR EmptyString)).
  { intros l v. unfold labelledCRLF, labelled. now rewrite !append_assoc. }
  assert (Hocc : forall v, occurs LF v = false -> occurs LF (v +:+ String CR EmptyString) = false).
  { intros v Hv. rewrite occurs_append, Hv. reflexivity. }
  rewrite !Hcr.
  rewrite (parseUpdateAvailable_labelled P l1 _ l2 _ l3 _ notes)
    by (assumption || now apply Hocc).
  rewrite (parseUpdateAvailable_labelled P l1 v1 l2 v2 l3 v3 notes) by assumption.
  now rewrite !trimmed_space.
Qed.

End ParserFurther.

(* ===================================================================== *)
(** * Instances of the further properties *)
(* ===================================================================== *)

Lemma checkForUpdates_without_offer_witness :
  events (checkForUpdates examplePlatform checkFailed Install newYear2024 freshUpdater)
  = (checkEvents examplePlatform freshUpdater ++
     [WarningBox "Update Check Error" "There was an error running the update check."
        "network down"])%list /\
  events (checkForUpdates examplePlatform checkCrashed Install newYear2024 freshUpdater)
  = checkEvents examplePlatform freshUpdater /\
  skipEntry "v1.2.3"
    (settings (priv (checkForUpdates examplePlatform checkFailed Install newYear2024 freshUpdater)))
  = false.
Proof.
  split; [|split].
  - apply (proj1 (checkForUpdates_without_offer examplePlatform checkFailed Install
                    newYear2024 freshUpdater eq_refl)).
    reflexivity.
  - apply (proj1 (proj2 (checkForUpdates_without_offer examplePlatform checkCrashed Install
                    newYear2024 freshUpdater eq_refl))); discriminate.
  - rewrite (proj2 (proj2 (proj2 (checkForUpdates_without_offer examplePlatform checkFailed
                    Install newYear2024 freshUpdater eq_refl)) ltac:(discriminate))).
    reflexivity.
Defined.

Lemma skipped_version_is_silent_witness :
  events (checkForUpdates examplePlatform updateAvailable Install newYear2024
            (exampleUpdater false 86400 None TimerInactive {["skip/v1.2.3" := VBool true]}))
  = checkEvents examplePlatform freshUpdater /\
  events (checkForUpdates examplePlatform updateAvailable Install (newYear2024 + 86400000)
            (checkForUpdates examplePlatform updateAvailable Skip newYear2024 freshUpdater))
  = (events (checkForUpdates examplePlatform updateAvailable Skip newYear2024 freshUpdater)
     ++ checkEvents examplePlatform freshUpdater)%list.
Proof.
  split.
  - apply (proj1 (skipped_version_is_silent examplePlatform updateAvailable Install newYear2024
                    (exampleUpdater false 86400 None TimerInactive {["skip/v1.2.3" := VBool true]})
                    "1.2.3" "v1.2.3" (Some newYear2024) ("Fixed bugs." +:+ String LF EmptyString)
                    eq_refl eq_refl eq_refl)).
    reflexivity.
  - apply (proj2 (skipped_version_is_silent examplePlatform updateAvailable Skip newYear2024
                    freshUpdater
                    "1.2.3" "v1.2.3" (Some newYear2024) ("Fixed bugs." +:+ String LF EmptyString)
                    eq_refl eq_refl eq_refl) eq_refl (or_introl eq_refl)
                 Install (newYear2024 + 86400000)).
Defined.

Lemma offerUpdate_other_tags_witness :
  skipEntry "v1.2.4"
    (settings (priv (offerUpdate examplePlatform "1.2.3" "v1.2.3" "Fixed bugs." Skip freshUpdater)))
  = skipEntry "v1.2.4" (settings (priv freshUpdater)).
Proof.
  apply (offerUpdate_other_tags examplePlatform "1.2.3" "v1.2.3" "Fixed bugs." Skip
           freshUpdater "v1.2.4"); [reflexivity | discriminate].
Defined.

Lemma PrismExternalUpdater_defaults_witness :
  PrismExternalUpdater examplePlatform "/opt/prismlauncher" "/home/user/PrismLauncher"
    {["update_interval" := VString "daily"]} newYear2024
  = Some (exampleUpdater false 86400 None TimerInactive {["update_interval" := VString "daily"]}).
Proof.
  apply (PrismExternalUpdater_defaults examplePlatform "/opt/prismlauncher"
           "/home/user/PrismLauncher" {["update_interval" := VString "daily"]} newYear2024);
    try reflexivity.
  right. exists "daily". split; reflexivity.
Defined.

Lemma PrismExternalUpdater_checks_at_once_witness :
  exists v,
    PrismExternalUpdater examplePlatform "/opt/prismlauncher" "/home/user/PrismLauncher"
      {["auto_check" := VBool true]} newYear2024 = Some v /\
    updateTimer (priv v) = TimerActive 0 /\ lastCheck (priv v) = None /\ events v = [].
Proof.
  apply (PrismExternalUpdater_checks_at_once examplePlatform "/opt/prismlauncher"
           "/home/user/PrismLauncher" {["auto_check" := VBool true]} newYear2024);
    [reflexivity | left; reflexivity].
Defined.

Lemma checkForUpdates_survives_restart_witness :
  exists v,
    PrismExternalUpdater examplePlatform "/opt/prismlauncher" "/home/user/PrismLauncher"
      (stored (settings (priv
         (checkForUpdates examplePlatform updateAvailable Skip newYear2024 freshUpdater))))
      (newYear2024 + 60000) = Some v /\
    lastCheck (priv v) = Some newYear2024 /\
    skipEntry "v1.2.3" (settings (priv v)) = true.
Proof.
  destruct (PrismExternalUpdater examplePlatform "/opt/prismlauncher" "/home/user/PrismLauncher"
      (stored (settings (priv
         (checkForUpdates examplePlatform updateAvailable Skip newYear2024 freshUpdater))))
      (newYear2024 + 60000)) as [v|] eqn:Hv.
  - exists v. split; [reflexivity|].
    destruct (checkForUpdates_survives_restart examplePlatform updateAvailable Skip newYear2024
                freshUpdater _ _ _ v eq_refl Hv) as [Hlast Hskip].
    split; [rewrite Hlast; reflexivity | rewrite Hskip; reflexivity].
  - vm_compute in Hv. discriminate Hv.
Defined.

Lemma skip_survives_restart_witness :
  exists v,
    PrismExternalUpdater examplePlatform "/opt/prismlauncher" "/home/user/PrismLauncher"
      (stored (settings (priv
         (offerUpdate examplePlatform "1.2.3" "v1.2.3" "Fixed bugs." Skip freshUpdater))))
      newYear2024 = Some v /\
    offerUpdate examplePlatform "1.2.3" "v1.2.3" "Fixed bugs." Install v = v.
Proof.
  destruct (PrismExternalUpdater examplePlatform "/opt/prismlauncher" "/home/user/PrismLauncher"
      (stored (settings (priv
         (offerUpdate examplePlatform "1.2.3" "v1.2.3" "Fixed bugs." Skip freshUpdater))))
      newYear2024) as [v|] eqn:Hv.
  - exists v. split; [reflexivity|].
    apply (skip_survives_restart examplePlatform "1.2.3" "v1.2.3" "Fixed bugs." Skip
             freshUpdater _ _ _ v eq_refl eq_refl (or_introl eq_refl) Hv).
  - vm_compute in Hv. discriminate Hv.
Defined.

Lemma setBetaAllowed_lost_on_restart_witness :
  exists v,
    PrismExternalUpdater examplePlatform "/opt/prismlauncher" "/home/user/PrismLauncher"
      (stored (settings (priv (setBetaAllowed true freshUpdater)))) newYear2024 = Some v /\
    getBetaAllowed v = false.
Proof.
  destruct (PrismExternalUpdater examplePlatform "/opt/prismlauncher" "/home/user/PrismLauncher"
      (stored (settings (priv (setBetaAllowed true freshUpdater)))) newYear2024)
    as [v|] eqn:Hv.
  - exists v. split; [reflexivity|].
    rewrite (setBetaAllowed_lost_on_restart examplePlatform true freshUpdater _ _ _ v eq_refl Hv).
    reflexivity.
  - vm_compute in Hv. discriminate Hv.
Defined.

Lemma settings_file_up_to_date_witness :
  destroy (setBetaAllowed true freshUpdater)
  = stored (settings (priv (setBetaAllowed true freshUpdater))) /\
  destroy (offerUpdate examplePlatform "1.2.3" "v1.2.3" "Fixed bugs." DontInstall
             (checkForUpdates examplePlatform checkFailed Install newYear2024 freshUpdater))
  = stored (settings (priv (checkForUpdates examplePlatform checkFailed Install
                              newYear2024 freshUpdater))).
Proof.
  destruct (settings_file_up_to_date examplePlatform)
    as (_ & _ & _ & Hbeta & Hcheck & Hoffer & Hdestroy).
  split.
  - apply Hdestroy. apply Hbeta.
  - rewrite Hdestroy by (apply Hoffer; apply Hcheck). reflexivity.
Defined.

Lemma setters_keep_skip_list_witness :
  let u := exampleUpdater false 86400 None TimerInactive {["skip/v1.2.3" := VBool true]} in
  skipEntry "v1.2.3" (settings (priv (reached (setAutomaticallyChecksForUpdates true newYear2024 u))))
  = true /\
  skipEntry "v1.2.3" (settings (priv (setBetaAllowed true u))) = true.
Proof.
  cbv zeta.
  destruct (setters_keep_skip_list newYear2024
              (exampleUpdater false 86400 None TimerInactive {["skip/v1.2.3" := VBool true]})
              "v1.2.3" eq_refl) as (Hauto & _ & Hbeta).
  split.
  - rewrite (Hauto true). reflexivity.
  - rewrite (Hbeta true). reflexivity.
Defined.

Lemma resetAutoCheckTimer_range_witness :
  (0 <= 82800000 <= INT_MAX /\
   autoCheck (priv (exampleUpdater true 86400 (Some newYear2024) TimerInactive checkedAtNewYear))
   = true) /\
  resetAutoCheckTimer newYear2024
    (exampleUpdater true 2592000 (Some newYear2024) TimerInactive thirtyDays) = None.
Proof.
  split.
  - apply (proj1 (resetAutoCheckTimer_range (newYear2024 + 3600000)
                (exampleUpdater true 86400 (Some newYear2024) TimerInactive checkedAtNewYear))
              (exampleUpdater true 86400 (Some newYear2024) (TimerActive 82800000) checkedAtNewYear)
              82800000 eq_refl eq_refl).
  - apply (proj2 (resetAutoCheckTimer_range newYear2024
                    (exampleUpdater true 2592000 (Some newYear2024) TimerInactive thirtyDays))).
    split; [reflexivity|]. exists newYear2024. split; [reflexivity|].
    intros z Hz. vm_compute in Hz. injection Hz as <-. reflexivity.
Defined.

Lemma auto_check_off_never_arms_witness :
  exists u', setUpdateCheckInterval (int_to_double 2592000) newYear2024 freshUpdater
             = Returned u' /\
    updateTimer (priv u') = TimerInactive /\
    getUpdateCheckInterval u' = int_to_double 2592000.
Proof.
  apply (proj2 (auto_check_off_never_arms newYear2024 freshUpdater) eq_refl
           (int_to_double 2592000)).
Defined.

Lemma parseUpdateAvailable_crlf_witness :
  parseUpdateAvailable examplePlatform
    (labelledCRLF "Version" "1.2.3" +:+ labelledCRLF "Tag" "v1.2.3"
     +:+ labelledCRLF "Timestamp" "2024-01-01T00:00:00" +:+ "Fixed bugs.")
  = ("1.2.3", "v1.2.3", Some newYear2024, "Fixed bugs.").
Proof.
  rewrite (parseUpdateAvailable_crlf examplePlatform
             "Version" "1.2.3" "Tag" "v1.2.3" "Timestamp" "2024-01-01T00:00:00" "Fixed bugs.")
    by reflexivity.
  reflexivity.
Defined.
